(** * datepicker-react: the date picker controller and its calendar grid

    A shallow embedding of [src/DatePicker/DatePicker.tsx].

    - [JSDate] is the host: the part of the ECMAScript [Date] object
      the component uses (the constructor from components, [getFullYear],
      [getMonth], [getDate], [getDay]), over time values in local time.
    - [Utils] is the interface of the module ["./utils"] as
      [DatePicker.tsx] imports it; [SpecUtils] is one implementation of
      it, written from the specification.
    - [DatePicker] and [DatePickerPoputContent] are the two React
      components.  A handler is a function from the values its closure
      captured at render time to the list of state updates and callback
      invocations it issues, in program order. *)

From Stdlib Require Import ZArith String Ascii List Bool Lia.
Import ListNotations.
Local Open Scope Z_scope.

(* ================================================================== *)
(** ** The host [Date] object *)

Module JSDate.

(** A [Date] is its time value, in milliseconds since the epoch.  The
    component only goes through local-time entry points, so the time
    value is kept in local time (the zone offset is a constant shift
    the model leaves out).

    The model is of the valid dates of a zone without offset changes:
    it has no Invalid Date (a NaN time value, whose accessors return
    NaN), and it does not move a local midnight that a change of offset
    skips.  What is stated of a date built by the constructor is stated
    of its year, month and day, for years in which every day is within
    [TimeClip]. *)
Definition Date : Type := Z.

Definition msPerDay : Z := 86400000.

(** ECMAScript [Day(t)]: [floor (t / msPerDay)]. *)
Definition Day (t : Z) : Z := t / msPerDay.

Definition isLeapYear (y : Z) : bool :=
  (y mod 4 =? 0) && (negb (y mod 100 =? 0) || (y mod 400 =? 0)).

Definition DaysInYear (y : Z) : Z := if isLeapYear y then 366 else 365.

(** Day number of the first day of year [y]. *)
Definition DayFromYear (y : Z) : Z :=
  365 * (y - 1970) + (y - 1969) / 4 - (y - 1901) / 100 + (y - 1601) / 400.

(** The year a day number falls in: the largest [y] with
    [DayFromYear y <= n].  The mean year length gives an estimate that
    is off by at most one. *)
Definition YearFromDay (n : Z) : Z :=
  let y0 := 1970 + (400 * n) / 146097 in
  if n <? DayFromYear y0 then y0 - 1
  else if DayFromYear (y0 + 1) <=? n then y0 + 1
  else y0.

Definition InLeapYear (y : Z) : Z := if isLeapYear y then 1 else 0.

(** Day within the year on which month [m] (0-based) starts; entry 12
    is the length of the year. *)
Definition monthStart (leap m : Z) : Z :=
  match m with
  | 0 => 0
  | 1 => 31
  | 2 => 59 + leap
  | 3 => 90 + leap
  | 4 => 120 + leap
  | 5 => 151 + leap
  | 6 => 181 + leap
  | 7 => 212 + leap
  | 8 => 243 + leap
  | 9 => 273 + leap
  | 10 => 304 + leap
  | 11 => 334 + leap
  | _ => 365 + leap
  end.

(** The length of month [m] of year [y], as the distance between two
    month starts. *)
Definition monthLength (y m : Z) : Z :=
  monthStart (InLeapYear y) (m + 1) - monthStart (InLeapYear y) m.

Definition DayWithinYear (n : Z) : Z := n - DayFromYear (YearFromDay n).

Fixpoint monthScan (leap dayInYear : Z) (m : Z) (fuel : nat) : Z :=
  match fuel with
  | O => m
  | S fuel' =>
      if dayInYear <? monthStart leap (m + 1) then m
      else monthScan leap dayInYear (m + 1) fuel'
  end.

Definition MonthFromDay (n : Z) : Z :=
  monthScan (InLeapYear (YearFromDay n)) (DayWithinYear n) 0 11.

Definition DateFromDay (n : Z) : Z :=
  DayWithinYear n
  - monthStart (InLeapYear (YearFromDay n)) (MonthFromDay n) + 1.

(** ECMAScript [WeekDay]: 0 is Sunday; the epoch was a Thursday. *)
Definition WeekDay (n : Z) : Z := (n + 4) mod 7.

(** ECMAScript [MakeDay]: months outside 0..11 carry into the year,
    and the day of the month is an offset from the first. *)
Definition MakeDay (year month date : Z) : Z :=
  let ym := year + month / 12 in
  let mn := month mod 12 in
  DayFromYear ym + monthStart (InLeapYear ym) mn + date - 1.

Definition MakeDate (day time : Z) : Z := day * msPerDay + time.



(** [new Date(year, month, date)]: a year from 0 to 99 means 1900 +
    year; the time of day is midnight.  The host passes the result
    through [TimeClip]; the model gives the time value before it, which
    is the host's where [TimeClip] keeps it. *)
Definition newDate (year month date : Z) : Date :=
  let yr := if (0 <=? year) && (year <=? 99) then 1900 + year else year in
  MakeDate (MakeDay yr month date) 0.

Definition getFullYear (t : Date) : Z := YearFromDay (Day t).
Definition getMonth (t : Date) : Z := MonthFromDay (Day t).
Definition getDate (t : Date) : Z := DateFromDay (Day t).
Definition getDay (t : Date) : Z := WeekDay (Day t).

End JSDate.

Import JSDate.

(* ================================================================== *)
(** ** The interface of ["./utils"] *)

Inductive CellType : Type := previous | current | next.

Record DateCellItem : Type := mkDateCellItem
  { year : Z; month : Z; date : Z; type : CellType }.

(** What [DatePicker.tsx] imports from ["./utils"] and calls.  [min] and
    [max] are optional props: [None] stands for [undefined]. *)
Class Utils : Type :=
  { getCurrentMonthDays : Z -> Z -> Z -> list DateCellItem;
    getNextMonthDays : Z -> Z -> list DateCellItem;
    getPreviousMonthDays : Z -> Z -> list DateCellItem;
    getDaysAmountInAMonth : Z -> Z -> Z;
    getInputValueFromDate : Date -> string;
    getDateFromInputValue : string -> option Date;
    isToday : DateCellItem -> Date -> bool;
    isInRange : Date -> option Date -> option Date -> bool }.

(* ================================================================== *)
(** ** ["./utils"], from the specification *)

Module SpecUtils.

(** Modelled from the spec: the date with the given year, zero-based
    month and day of the month ("CalendarDate", normalised by the host
    calendar arithmetic), at midnight. *)
Definition ofCivil (y m d : Z) : Date := MakeDate (MakeDay y m d) 0.

(** Modelled from the spec: [getDaysAmountInAMonth] is missing from
    the sources.  "Returns the day count for the given (year,
    zero-based month), correctly handling leap years for February via
    standard Gregorian leap-year rule (divisible by 4, not by 100
    unless also by 400)." *)
Definition getDaysAmountInAMonth (year month : Z) : Z :=
  match month with
  | 1 =>
      if (year mod 4 =? 0)
         && (negb (year mod 100 =? 0) || (year mod 400 =? 0))
      then 29 else 28
  | 3 | 5 | 8 | 10 => 30
  | _ => 31
  end.

(** [n] consecutive day numbers starting at [first]. *)
Fixpoint daysFrom (first : Z) (n : nat) : list Z :=
  match n with
  | O => []
  | S n' => first :: daysFrom (first + 1) n'
  end.

(** Modelled from the spec: [getCurrentMonthDays] is missing from the
    sources.  "The [totalDays] cells for days 1..totalDays of the
    given month, each tagged [current]." *)
Definition getCurrentMonthDays (year month totalDays : Z)
  : list DateCellItem :=
  map (fun d => mkDateCellItem year month d current)
      (daysFrom 1 (Z.to_nat totalDays)).

(** Weekday index (Sunday = 0) of day 1 of (year, month). *)
Definition firstWeekDay (year month : Z) : Z :=
  getDay (ofCivil year month 1).

(** Modelled from the spec: [getPreviousMonthDays] is missing from the
    sources.  "The trailing N days of the month preceding (year,
    month), where N = weekday-index (Sunday=0) of day 1 of (year,
    month). [...] Each cell tagged [previous], with year/month rolled
    back appropriately (December of previous year when month is
    January)." *)
Definition getPreviousMonthDays (year month : Z) : list DateCellItem :=
  let n := firstWeekDay year month in
  let py := if month =? 0 then year - 1 else year in
  let pm := if month =? 0 then 11 else month - 1 in
  let total := getDaysAmountInAMonth py pm in
  map (fun d => mkDateCellItem py pm d previous)
      (daysFrom (total - n + 1) (Z.to_nat n)).

Definition VISIBLE_CELLS_AMOUNT : Z := 7 * 6.

(** Modelled from the spec: [getNextMonthDays] is missing from the
    sources.  "Leading days of the month following (year, month),
    enough to pad the combined sequence (previous + current + next) to
    exactly 42 cells.  Each cell tagged [next], with year/month rolled
    forward appropriately (January of next year when month is
    December)." *)
Definition getNextMonthDays (year month : Z) : list DateCellItem :=
  let n := firstWeekDay year month in
  let total := getDaysAmountInAMonth year month in
  let ny := if month =? 11 then year + 1 else year in
  let nm := if month =? 11 then 0 else month + 1 in
  map (fun d => mkDateCellItem ny nm d next)
      (daysFrom 1 (Z.to_nat (VISIBLE_CELLS_AMOUNT - total - n))).

(** Modelled from the spec: [isInRange] is missing from the sources.
    "A candidate date is in range iff not-earlier-than min (when
    present) and not-later-than max (when present)." *)
Definition isInRange (d : Date) (min max : option Date) : bool :=
  match min with Some lo => lo <=? d | None => true end
  && match max with Some hi => d <=? hi | None => true end.

(** Modelled from the spec: [isToday] is missing from the sources; the
    cell is today's calendar day. *)
Definition isToday (cell : DateCellItem) (today : Date) : bool :=
  (year cell =? getFullYear today)
  && (month cell =? getMonth today)
  && (date cell =? getDate today).

(** *** The canonical format, [YYYY-MM-DD] *)

Definition digitChar (d : Z) : ascii := ascii_of_nat (48 + Z.to_nat d).

Definition digitVal (c : ascii) : option Z :=
  let n := Z.of_nat (nat_of_ascii c) in
  if (48 <=? n) && (n <=? 57) then Some (n - 48) else None.

(** The [w] low-order decimal digits of [n], most significant first. *)
Fixpoint fixedDigits (w : nat) (n : Z) : string :=
  match w with
  | O => EmptyString
  | S w' => (fixedDigits w' (n / 10) ++ String (digitChar (n mod 10)) "")%string
  end.

Fixpoint countDigits (fuel : nat) (n : Z) : nat :=
  match fuel with
  | O => 1
  | S fuel' => if n <? 10 then 1%nat else S (countDigits fuel' (n / 10))
  end.

(** Number of decimal digits of [n >= 0]. *)
Definition numDigits (n : Z) : nat := countDigits (Z.to_nat (Z.log2 n)) n.

(** [n] in decimal, padded with zeros on the left to at least [w]
    digits; a negative number keeps its sign in front. *)
Definition zeroPad (w : nat) (n : Z) : string :=
  if n <? 0
  then String "-" (fixedDigits (Nat.max w (numDigits (- n))) (- n))
  else fixedDigits (Nat.max w (numDigits n)) n.

(** Modelled from the spec: [getInputValueFromDate] is missing from
    the sources.  "Canonical format: a fixed locale-independent date
    format, e.g. YYYY-MM-DD"; the month is written 1-based. *)
Definition getInputValueFromDate (d : Date) : string :=
  (zeroPad 4 (getFullYear d) ++ "-" ++ zeroPad 2 (getMonth d + 1)
     ++ "-" ++ zeroPad 2 (getDate d))%string.

(** The number a string of decimal digits denotes. *)
Fixpoint number (acc : Z) (cs : list ascii) : option Z :=
  match cs with
  | [] => Some acc
  | c :: cs' =>
      match digitVal c with
      | Some v => number (10 * acc + v) cs'
      | None => None
      end
  end.

(** The year as [zeroPad 4] writes it: an optional minus sign, then at
    least four digits. *)
Definition yearNumber (cs : list ascii) : option Z :=
  match cs with
  | [] => None
  | c :: ds =>
      if Ascii.eqb c "-"
      then if (4 <=? length ds)%nat
           then option_map Z.opp (number 0 ds) else None
      else if (4 <=? length cs)%nat then number 0 cs else None
  end.

(** Modelled from the spec: [getDateFromInputValue] is missing from
    the sources.  "Parsing fails if the text does not match the
    expected shape or describes an impossible calendar date"; the shape
    is the one [getInputValueFromDate] writes, since "the exact format
    must be reversible by the parser": a year, and after it the six
    characters [-MM-DD]. *)
Definition getDateFromInputValue (s : string) : option Date :=
  match rev (list_ascii_of_string s) with
  | d0 :: d1 :: s2 :: m0 :: m1 :: s1 :: year =>
      if Ascii.eqb s1 "-" && Ascii.eqb s2 "-" then
        match yearNumber (rev year), number 0 [m1; m0],
              number 0 [d1; d0] with
        | Some y, Some m, Some d =>
            if (1 <=? m) && (m <=? 12) && (1 <=? d)
               && (d <=? getDaysAmountInAMonth y (m - 1))
            then Some (ofCivil y (m - 1) d)
            else None
        | _, _, _ => None
        end
      else None
  | _ => None
  end.

End SpecUtils.

Definition specUtils : Utils :=
  {| getCurrentMonthDays := SpecUtils.getCurrentMonthDays;
     getNextMonthDays := SpecUtils.getNextMonthDays;
     getPreviousMonthDays := SpecUtils.getPreviousMonthDays;
     getDaysAmountInAMonth := SpecUtils.getDaysAmountInAMonth;
     getInputValueFromDate := SpecUtils.getInputValueFromDate;
     getDateFromInputValue := SpecUtils.getDateFromInputValue;
     isToday := SpecUtils.isToday;
     isInRange := SpecUtils.isInRange |}.

(* ================================================================== *)
(** ** State, props and effects of the two components *)

(** [DatePickerProps] without [onChange], which is the [OnChange]
    effect below. *)
Record Props : Type := mkProps
  { value : Date; min : option Date; max : option Date }.

(** The [useState] cells of [DatePicker]. *)
Record State : Type := mkState
  { showPopup : bool; inputValue : string }.

(** The [useState] cells of [DatePickerPoputContent]. *)
Record Panel : Type := mkPanel
  { panelYear : Z; panelMonth : Z }.

(** What a handler or an effect callback does besides computing: it
    calls state setters and the caller's [onChange]. *)
Inductive Effect : Type :=
| SetShowPopup (b : bool)
| SetInputValue (s : string)
| SetPanelYear (y : Z)
| SetPanelMonth (m : Z)
| OnChange (d : Date).

(** The whole control: both components' state and the log of calls of
    the caller's [onChange], oldest first. *)
Record UI : Type := mkUI
  { state : State; panel : Panel; changes : list Date }.

Definition perform (ui : UI) (e : Effect) : UI :=
  match e with
  | SetShowPopup b =>
      mkUI (mkState b (inputValue (state ui))) (panel ui) (changes ui)
  | SetInputValue s =>
      mkUI (mkState (showPopup (state ui)) s) (panel ui) (changes ui)
  | SetPanelYear y =>
      mkUI (state ui) (mkPanel y (panelMonth (panel ui))) (changes ui)
  | SetPanelMonth m =>
      mkUI (state ui) (mkPanel (panelYear (panel ui)) m) (changes ui)
  | OnChange d =>
      mkUI (state ui) (panel ui) (changes ui ++ [d])
  end.

Definition run (es : list Effect) (ui : UI) : UI := fold_left perform es ui.

(** The target of a document click, as [onDocumentClick] looks at it:
    whether it is a [Node], and whether [element.contains] it. *)
Inductive EventTarget : Type :=
| NotANode
| NodeTarget (insideElement : bool).

(* ================================================================== *)
(** ** [DatePicker] *)

Module DatePicker.
Section Component.

Context {utils : Utils}.

(** [String.prototype.trim], of the host. *)
Variable trim : string -> string.

(** The layout effect on [value]. *)
Definition valueLayoutEffect (p : Props) : list Effect :=
  [SetInputValue (getInputValueFromDate (value p))].

Definition updateValueOnPopupCloseAction (p : Props) (s : State)
  : list Effect :=
  let date := getDateFromInputValue (inputValue s) in
  SetShowPopup false ::
  match date with
  | None => [SetInputValue (getInputValueFromDate (value p))]
  | Some date =>
      let isDateInRange := isInRange date (min p) (max p) in
      if negb isDateInRange then []
      else [OnChange date]
  end.

(** [latestUpdateValueFromInput.current] is the action of the latest
    render, so the listener runs it on the current props and state. *)
Definition onDocumentClick (p : Props) (s : State) (target : EventTarget)
  : list Effect :=
  match target with
  | NotANode => []
  | NodeTarget true => []
  | NodeTarget false => updateValueOnPopupCloseAction p s
  end.

Definition handleChange (value : Date) : list Effect :=
  [OnChange value; SetShowPopup false].

Definition onInputValueChange (targetValue : string) : list Effect :=
  [SetInputValue (trim targetValue)].

Definition onInputClick : list Effect := [SetShowPopup true].

(** The memo [[inputValueDate, isValidInputValue]]. *)
Definition inputValueMemo (p : Props) (s : State) : option Date * bool :=
  let date := getDateFromInputValue (inputValue s) in
  match date with
  | None => (None, false)
  | Some date =>
      let isDateInRange := isInRange date (min p) (max p) in
      (Some date, true)
  end.

Definition inputValueDate (p : Props) (s : State) : option Date :=
  fst (inputValueMemo p s).

Definition isValidInputValue (p : Props) (s : State) : bool :=
  snd (inputValueMemo p s).

Definition onKeyDown (p : Props) (s : State) (key : string)
  : list Effect :=
  if negb (String.eqb key "Enter") then []
  else updateValueOnPopupCloseAction p s.

End Component.
End DatePicker.

(* ================================================================== *)
(** ** [DatePickerPoputContent] *)

Module DatePickerPoputContent.
Section Component.

Context {utils : Utils}.

(** The initial values of [panelYear] and [panelMonth]. *)
Definition initialPanel (selectedValue : Date) : Panel :=
  mkPanel (getFullYear selectedValue) (getMonth selectedValue).

(** The layout effect on [inputValueDate]. *)
Definition inputValueDateLayoutEffect (inputValueDate : option Date)
  : list Effect :=
  match inputValueDate with
  | None => []
  | Some d => [SetPanelMonth (getMonth d); SetPanelYear (getFullYear d)]
  end.

(** The memo [[year, month, day]]. *)
Definition selectedYearMonthDay (selectedValue : Date) : Z * Z * Z :=
  let currentYear := getFullYear selectedValue in
  let currentDay := getDate selectedValue in
  let currentMonth := getMonth selectedValue in
  (currentYear, currentMonth, currentDay).

Definition dateCells (pn : Panel) : list DateCellItem :=
  let daysInAMonth := getDaysAmountInAMonth (panelYear pn) (panelMonth pn) in
  let currentMonthDays :=
    getCurrentMonthDays (panelYear pn) (panelMonth pn) daysInAMonth in
  let prevMonthDays := getPreviousMonthDays (panelYear pn) (panelMonth pn) in
  let nextMonthDays := getNextMonthDays (panelYear pn) (panelMonth pn) in
  prevMonthDays ++ currentMonthDays ++ nextMonthDays.

(** [onChange] is the prop: [DatePicker] passes [handleChange]. *)
Definition onDateSelect (onChange : Date -> list Effect)
  (item : DateCellItem) : list Effect :=
  onChange (newDate (year item) (month item) (date item)).

Definition nextYear (pn : Panel) : list Effect :=
  [SetPanelYear (panelYear pn + 1)].

Definition prevYear (pn : Panel) : list Effect :=
  [SetPanelYear (panelYear pn - 1)].

Definition nextMonth (pn : Panel) : list Effect :=
  if panelMonth pn =? 11
  then [SetPanelMonth 0; SetPanelYear (panelYear pn + 1)]
  else [SetPanelMonth (panelMonth pn + 1)].

Definition prevMonth (pn : Panel) : list Effect :=
  if panelMonth pn =? 0
  then [SetPanelMonth 11; SetPanelYear (panelYear pn - 1)]
  else [SetPanelMonth (panelMonth pn - 1)].

(** What the body of [dateCells.map] computes for one cell. *)
Record CellFlags : Type := mkCellFlags
  { isSelectedDate : bool;
    isTodayDate : bool;
    isNotCurrent : bool;
    isDateInRange : bool }.

Definition cellFlags (selectedValue todayDate : Date)
  (min max : option Date) (cell : DateCellItem) : CellFlags :=
  let '(year', month', day') := selectedYearMonthDay selectedValue in
  {| isSelectedDate :=
       (year cell =? year') && (month cell =? month') && (date cell =? day');
     isTodayDate := isToday cell todayDate;
     isNotCurrent :=
       match type cell with current => false | _ => true end;
     isDateInRange :=
       isInRange (newDate (year cell) (month cell - 1) (date cell)) min max |}.

(** The cell carries the class [calendar-panel-item--not-in-range]. *)
Definition notInRangeClass (f : CellFlags) : bool := negb (isDateInRange f).

End Component.
End DatePickerPoputContent.

(* ================================================================== *)
(** ** Vocabulary of the properties *)

(** "Divisible by 4, not by 100 unless also by 400." *)
Definition isGregorianLeapYear (y : Z) : Prop :=
  (4 | y) /\ (~ (100 | y) \/ (400 | y)).

(** A valid CalendarDate: a zero-based month and a day that exists in
    that month of that year. *)
Definition validCalendarDate (y m d : Z) : Prop :=
  0 <= m <= 11 /\ 1 <= d <= SpecUtils.getDaysAmountInAMonth y m.

(** The two triggers of the commit on popup close. *)
Inductive CloseTrigger : Type := EnterKey | OutsideClick.

(** What a trigger runs: the key handler on the key ["Enter"], or the
    document listener on a node outside the root element. *)
Definition fire {utils : Utils} (tr : CloseTrigger) (p : Props) (s : State)
  : list Effect :=
  match tr with
  | EnterKey => DatePicker.onKeyDown p s "Enter"
  | OutsideClick => DatePicker.onDocumentClick p s (NodeTarget false)
  end.

(** A click on a navigation button: the handler of the current render
    runs on the current panel. *)
Definition click (handler : Panel -> list Effect) (ui : UI) : UI :=
  run (handler (panel ui)) ui.

(** A scenario: 15 May 2023 is selected; the bounds, where set, are the
    ones [App.tsx] suggests, the first and the last day of May 2023; the
    user has typed [t] and the panel shows May 2023. *)
Definition selected : Date := newDate 2023 4 15.

Definition bounded : Props :=
  mkProps selected (Some (newDate 2023 4 1)) (Some (newDate 2023 5 0)).

Definition unbounded : Props := mkProps selected None None.

Definition typed (open : bool) (t : string) : UI :=
  mkUI (mkState open t) (mkPanel 2023 4) [].

(* ================================================================== *)
(** ** [useLatest] *)

Module UseLatest.
Section Hook.

Variable A : Type.

(** [Object.is] on the hook's argument, as the dependency check of the
    layout effect applies it. *)
Variable same : A -> A -> bool.

(** The ref cell, and the dependency array [[value]] of the last
    render. *)
Record Latest : Type := mkLatest { current : A; deps : A }.

(** The first render: [useRef(value)], and the layout effect runs. *)
Definition mount (value : A) : Latest := mkLatest value value.

(** A later render: [useRef] returns the same cell; the layout effect
    assigns [value] to it unless [value] is the same as at the render
    before. *)
Definition rerender (h : Latest) (value : A) : Latest :=
  if same (deps h) value then mkLatest (current h) value
  else mkLatest value value.

(** The hook after a first render and the renders that follow. *)
Definition useLatest (first : A) (later : list A) : Latest :=
  fold_left rerender later (mount first).

End Hook.
End UseLatest.

(** [latestUpdateValueFromInput] in [DatePicker]: a render passes the
    closure it has just built, which stands here as the props and state
    it captured; a new function is never the same as an older one. *)
Definition latestUpdateValueFromInput
  (first : Props * State) (later : list (Props * State))
  : UseLatest.Latest (Props * State) :=
  UseLatest.useLatest (Props * State) (fun _ _ => false) first later.

(** The listener the mount effect registered, when a click reaches the
    document: it calls [latestUpdateValueFromInput.current]. *)
Definition documentListener {utils : Utils}
  (ref : UseLatest.Latest (Props * State)) (target : EventTarget)
  : list Effect :=
  DatePicker.onDocumentClick (fst (UseLatest.current _ ref))
    (snd (UseLatest.current _ ref)) target.

(* ================================================================== *)
(** ** More vocabulary *)

(** The months since year 0 the panel stands at. *)
Definition panelIndex (pn : Panel) : Z := 12 * panelYear pn + panelMonth pn.


(** The date the cell renderer hands to [isInRange]. *)
Definition rangeTestedDate (c : DateCellItem) : Date :=
  newDate (year c) (month c - 1) (date c).


(** A sequence of clicks on navigation buttons. *)
Definition clicks (handlers : list (Panel -> list Effect)) (ui : UI) : UI :=
  fold_left (fun u h => click h u) handlers ui.

(* ================================================================== *)
(** ** [App] *)

Module App.
Section Component.

Context {utils : Utils}.

(** The page: [date] of [App], the state of [DatePicker], and the
    dates [setDate] has been called with, oldest first.  The state of
    the popup is not part of the page: it is created when the popup
    mounts and gone when it unmounts. *)
Record Page : Type := mkPage
  { date : Date; picker : State; calls : list Date }.

(** [<DatePicker value={date} onChange={setDate} />]: [min] and [max]
    are commented out. *)
Definition props (pg : Page) : Props := mkProps (date pg) None None.

(** [onChange] is [setDate]. *)
Definition perform (pg : Page) (e : Effect) : Page :=
  match e with
  | SetShowPopup b =>
      mkPage (date pg) (mkState b (inputValue (picker pg))) (calls pg)
  | SetInputValue s =>
      mkPage (date pg) (mkState (showPopup (picker pg)) s) (calls pg)
  | SetPanelYear _ => pg
  | SetPanelMonth _ => pg
  | OnChange d => mkPage d (picker pg) (calls pg ++ [d])
  end.

(** One React event on the page.  The effects of the handler are
    applied; when [setDate] was called, [date] is a new object, so on
    the render that follows the layout effect on [[value]] of
    [DatePicker] runs. *)
Definition dispatch (es : list Effect) (pg : Page) : Page :=
  let pg' := fold_left perform es pg in
  if (length (calls pg) <? length (calls pg'))%nat
  then fold_left perform (DatePicker.valueLayoutEffect (props pg')) pg'
  else pg'.

(** The handlers of [DatePicker] as [App] renders it. *)
Definition pressKey (key : string) (pg : Page) : Page :=
  dispatch (DatePicker.onKeyDown (props pg) (picker pg) key) pg.

Definition clickDocument (target : EventTarget) (pg : Page) : Page :=
  dispatch (DatePicker.onDocumentClick (props pg) (picker pg) target) pg.

Definition clickInput (pg : Page) : Page :=
  dispatch DatePicker.onInputClick pg.

(** A click on a grid cell.  React runs the [onClick] of the cell and
    renders before the click goes on to the document; the listener
    there gets the cell as its target, a [Node] that the root element
    contains only if the popup is still shown. *)
Definition clickCell (c : DateCellItem) (pg : Page) : Page :=
  let pg' :=
    dispatch (DatePickerPoputContent.onDateSelect DatePicker.handleChange c)
             pg in
  clickDocument (NodeTarget (showPopup (picker pg'))) pg'.

End Component.
End App.

(* ================================================================== *)
(** ** The host calendar: years, months and days of day numbers *)

Module JSDateFacts.

Ltac div_lia := Z.to_euclidean_division_equations; lia.

(** Splits on the value of a month index known to lie in 0..11. *)
Ltac month_cases m :=
  let H := fresh "Hm" in
  assert (H : m = 0 \/ m = 1 \/ m = 2 \/ m = 3 \/ m = 4 \/ m = 5 \/ m = 6
              \/ m = 7 \/ m = 8 \/ m = 9 \/ m = 10 \/ m = 11) by lia;
  repeat (destruct H as [H | H]); subst m.

Lemma Day_MakeDate (n : Z) : Day (MakeDate n 0) = n.
Proof.
  unfold Day, MakeDate. rewrite Z.add_0_r. apply Z.div_mul. discriminate.
Qed.

Lemma isLeapYear_spec (y : Z) :
  isLeapYear y = true <-> (y mod 4 = 0 /\ (y mod 100 <> 0 \/ y mod 400 = 0)).
Proof.
  unfold isLeapYear.
  rewrite andb_true_iff, orb_true_iff, negb_true_iff, !Z.eqb_eq, Z.eqb_neq.
  tauto.
Qed.

Lemma DayFromYear_succ (y : Z) :
  DayFromYear (y + 1) = DayFromYear y + DaysInYear y.
Proof.
  unfold DaysInYear.
  destruct (isLeapYear y) eqn:E.
  - apply isLeapYear_spec in E. unfold DayFromYear. div_lia.
  - assert (N : ~ (y mod 4 = 0 /\ (y mod 100 <> 0 \/ y mod 400 = 0)))
      by (rewrite <- isLeapYear_spec; congruence).
    unfold DayFromYear. div_lia.
Qed.

Lemma DayFromYear_mono (y y' : Z) :
  y <= y' -> DayFromYear y <= DayFromYear y'.
Proof. unfold DayFromYear. intros. div_lia. Qed.

Lemma DaysInYear_pos (y : Z) : 365 <= DaysInYear y <= 366.
Proof. unfold DaysInYear. destruct (isLeapYear y); lia. Qed.

(** [YearFromDay] meets its ECMAScript definition... *)
Lemma YearFromDay_bounds (n : Z) :
  DayFromYear (YearFromDay n) <= n < DayFromYear (YearFromDay n + 1).
Proof.
  unfold YearFromDay. cbv zeta.
  set (y0 := 1970 + 400 * n / 146097).
  assert (Hq : 146097 * (y0 - 1970) <= 400 * n < 146097 * (y0 - 1970) + 146097)
    by (subst y0; div_lia).
  clearbody y0.
  destruct (Z.ltb_spec n (DayFromYear y0)) as [H1 | H1];
    [| destruct (Z.leb_spec (DayFromYear (y0 + 1)) n) as [H2 | H2]].
  - replace (y0 - 1 + 1) with y0 by lia. split; [| lia].
    unfold DayFromYear in *. div_lia.
  - split; [lia |]. unfold DayFromYear in *. div_lia.
  - lia.
Qed.

(** ... and is the only year that does. *)
Lemma YearFromDay_unique (n y : Z) :
  DayFromYear y <= n < DayFromYear (y + 1) -> YearFromDay n = y.
Proof.
  intros H. pose proof (YearFromDay_bounds n) as B.
  destruct (Z.lt_trichotomy (YearFromDay n) y) as [L | [E | G]]; [| exact E |].
  - pose proof (DayFromYear_mono (YearFromDay n + 1) y ltac:(lia)). lia.
  - pose proof (DayFromYear_mono (y + 1) (YearFromDay n) ltac:(lia)). lia.
Qed.

Lemma MakeDay_month_in_range (y m d : Z) :
  0 <= m <= 11 ->
  MakeDay y m d = DayFromYear y + monthStart (InLeapYear y) m + d - 1.
Proof.
  intros H. unfold MakeDay. cbv zeta.
  rewrite (Z.div_small m 12), (Z.mod_small m 12), Z.add_0_r by lia.
  reflexivity.
Qed.

(** Month 12 is January of the next year. *)
Lemma MakeDay_month_12 (y d : Z) :
  MakeDay y 12 d = DayFromYear y + monthStart (InLeapYear y) 12 + d - 1.
Proof.
  unfold MakeDay. cbv zeta.
  change (12 / 12) with 1. change (12 mod 12) with 0.
  rewrite DayFromYear_succ. unfold DaysInYear, InLeapYear, monthStart.
  destruct (isLeapYear y), (isLeapYear (y + 1)); lia.
Qed.

Lemma monthLength_bounds (y m : Z) :
  0 <= m <= 11 -> 28 <= monthLength y m <= 31.
Proof.
  intros H. unfold monthLength, InLeapYear.
  month_cases m; destruct (isLeapYear y); cbn; lia.
Qed.

Lemma monthStart_year (y m : Z) :
  0 <= m <= 11 ->
  0 <= monthStart (InLeapYear y) m
  /\ monthStart (InLeapYear y) m + monthLength y m <= DaysInYear y.
Proof.
  intros H. unfold monthLength, InLeapYear, DaysInYear.
  month_cases m; destruct (isLeapYear y); cbn; lia.
Qed.

Lemma MakeDay_within_year (y m d : Z) :
  0 <= m <= 11 -> 1 <= d <= monthLength y m ->
  DayFromYear y <= MakeDay y m d < DayFromYear (y + 1).
Proof.
  intros Hm Hd. rewrite MakeDay_month_in_range, DayFromYear_succ by assumption.
  pose proof (monthStart_year y m Hm). lia.
Qed.

Lemma YearFromDay_MakeDay (y m d : Z) :
  0 <= m <= 11 -> 1 <= d <= monthLength y m ->
  YearFromDay (MakeDay y m d) = y.
Proof.
  intros. apply YearFromDay_unique, MakeDay_within_year; assumption.
Qed.

Lemma DayWithinYear_MakeDay (y m d : Z) :
  0 <= m <= 11 -> 1 <= d <= monthLength y m ->
  DayWithinYear (MakeDay y m d) = monthStart (InLeapYear y) m + d - 1.
Proof.
  intros Hm Hd. unfold DayWithinYear.
  rewrite YearFromDay_MakeDay, MakeDay_month_in_range by assumption. lia.
Qed.

Lemma InLeapYear_range (y : Z) : 0 <= InLeapYear y <= 1.
Proof. unfold InLeapYear. destruct (isLeapYear y); lia. Qed.

Lemma monthStart_mono (leap a b : Z) :
  0 <= leap <= 1 -> 0 <= a <= b -> b <= 12 ->
  monthStart leap a <= monthStart leap b.
Proof.
  intros Hl Ha Hb.
  assert (Hb' : b = 12 \/ 0 <= b <= 11) by lia.
  assert (Ha' : a = 12 \/ 0 <= a <= 11) by lia.
  destruct Hb' as [-> | Hb']; destruct Ha' as [-> | Ha'];
    try month_cases a; try month_cases b; cbv [monthStart]; lia.
Qed.

(** The scan stops at the month whose span holds the day. *)
Lemma monthScan_found (fuel : nat) :
  forall leap x m0 m,
    0 <= leap <= 1 -> 0 <= m0 <= m -> m <= 11 ->
    (Z.to_nat (m - m0) <= fuel)%nat ->
    monthStart leap m <= x < monthStart leap (m + 1) ->
    monthScan leap x m0 fuel = m.
Proof.
  induction fuel as [| fuel IH]; intros leap x m0 m Hl Hm0 Hm Hf Hx.
  - cbn [monthScan]. lia.
  - cbn [monthScan].
    destruct (Z.ltb_spec x (monthStart leap (m0 + 1))) as [Hlt | Hge].
    + destruct (Z.eq_dec m0 m) as [E | N]; [exact E | exfalso].
      pose proof (monthStart_mono leap (m0 + 1) m Hl ltac:(lia) ltac:(lia)).
      lia.
    + assert (N : m0 <> m) by (intros ->; lia).
      apply IH; try lia.
Qed.

Lemma MonthFromDay_MakeDay (y m d : Z) :
  0 <= m <= 11 -> 1 <= d <= monthLength y m ->
  MonthFromDay (MakeDay y m d) = m.
Proof.
  intros Hm Hd. unfold MonthFromDay.
  rewrite DayWithinYear_MakeDay, YearFromDay_MakeDay by assumption.
  apply monthScan_found; try lia.
  - apply InLeapYear_range.
  - unfold monthLength in Hd. lia.
Qed.

Lemma DateFromDay_MakeDay (y m d : Z) :
  0 <= m <= 11 -> 1 <= d <= monthLength y m ->
  DateFromDay (MakeDay y m d) = d.
Proof.
  intros Hm Hd. unfold DateFromDay.
  rewrite MonthFromDay_MakeDay, DayWithinYear_MakeDay, YearFromDay_MakeDay
    by assumption.
  lia.
Qed.

Lemma WeekDay_range (n : Z) : 0 <= WeekDay n <= 6.
Proof. unfold WeekDay. div_lia. Qed.

End JSDateFacts.

(* ================================================================== *)
(** ** The calendar grid builder *)

Module GridFacts.
Import JSDateFacts.

Lemma getDaysAmountInAMonth_monthLength (y m : Z) :
  0 <= m <= 11 -> SpecUtils.getDaysAmountInAMonth y m = monthLength y m.
Proof.
  intros H. unfold SpecUtils.getDaysAmountInAMonth, monthLength, InLeapYear.
  fold (isLeapYear y).
  month_cases m; destruct (isLeapYear y); reflexivity.
Qed.

Lemma getDaysAmountInAMonth_range (y m : Z) :
  0 <= m <= 11 -> 28 <= SpecUtils.getDaysAmountInAMonth y m <= 31.
Proof.
  intros H. rewrite getDaysAmountInAMonth_monthLength by assumption.
  apply monthLength_bounds; assumption.
Qed.

Lemma isGregorianLeapYear_spec (y : Z) :
  isGregorianLeapYear y <-> isLeapYear y = true.
Proof.
  unfold isGregorianLeapYear. rewrite isLeapYear_spec.
  rewrite <- !Z.mod_divide by discriminate. tauto.
Qed.

(** From the first of a month to the first of the next. *)
Lemma MakeDay_next_month (y m : Z) :
  0 <= m <= 11 -> MakeDay y (m + 1) 1 - MakeDay y m 1 = monthLength y m.
Proof.
  intros H. rewrite (MakeDay_month_in_range y m) by assumption.
  destruct (Z.eq_dec m 11) as [-> | N].
  - change (11 + 1) with 12. rewrite MakeDay_month_12.
    unfold monthLength. change (11 + 1) with 12. lia.
  - rewrite MakeDay_month_in_range by lia. unfold monthLength. lia.
Qed.

Lemma length_daysFrom (n : nat) :
  forall first, length (SpecUtils.daysFrom first n) = n.
Proof.
  induction n as [| n IH]; intros first; cbn [SpecUtils.daysFrom length].
  - reflexivity.
  - rewrite IH. reflexivity.
Qed.

(** Cells built from a list of days all carry the tag they were built
    with. *)
Lemma map_type_cells (y m : Z) (ty : CellType) (ds : list Z) :
  map type (map (fun d => mkDateCellItem y m d ty) ds)
  = repeat ty (length ds).
Proof.
  induction ds as [| d ds IH]; cbn [map repeat length type].
  - reflexivity.
  - rewrite IH. reflexivity.
Qed.

Lemma firstWeekDay_range (y m : Z) : 0 <= SpecUtils.firstWeekDay y m <= 6.
Proof. unfold SpecUtils.firstWeekDay, getDay. apply WeekDay_range. Qed.

Lemma length_getPreviousMonthDays (y m : Z) :
  length (SpecUtils.getPreviousMonthDays y m)
  = Z.to_nat (SpecUtils.firstWeekDay y m).
Proof.
  unfold SpecUtils.getPreviousMonthDays. cbv zeta.
  rewrite length_map, length_daysFrom. reflexivity.
Qed.

Lemma length_getCurrentMonthDays (y m total : Z) :
  length (SpecUtils.getCurrentMonthDays y m total) = Z.to_nat total.
Proof.
  unfold SpecUtils.getCurrentMonthDays.
  rewrite length_map, length_daysFrom. reflexivity.
Qed.

Lemma length_getNextMonthDays (y m : Z) :
  length (SpecUtils.getNextMonthDays y m)
  = Z.to_nat (42 - SpecUtils.getDaysAmountInAMonth y m
              - SpecUtils.firstWeekDay y m).
Proof.
  unfold SpecUtils.getNextMonthDays. cbv zeta.
  rewrite length_map, length_daysFrom. reflexivity.
Qed.

End GridFacts.

Section Grid.
Import JSDateFacts GridFacts.

#[local] Existing Instance specUtils.

(** C9.  For a zero-based month in 0..11, [getDaysAmountInAMonth] is the
    Gregorian length of the month: February has 29 days exactly in the
    years divisible by 4 and not by 100 unless also by 400, and 28 in
    the others; April, June, September and November have 30; the other
    months have 31.  It is also the number of days the host calendar
    counts from the first of the month to the first of the next.
    February 2024 has 29 days and February 2023 has 28. *)
Theorem getDaysAmountInAMonth_gregorian (year month : Z) :
  0 <= month <= 11 ->
  let n := getDaysAmountInAMonth year month in
  (month = 1 ->
   (n = 29 <-> isGregorianLeapYear year)
   /\ (n = 28 <-> ~ isGregorianLeapYear year))
  /\ (In month [3; 5; 8; 10] -> n = 30)
  /\ (In month [0; 2; 4; 6; 7; 9; 11] -> n = 31)
  /\ MakeDay year (month + 1) 1 - MakeDay year month 1 = n
  /\ getDaysAmountInAMonth 2024 1 = 29
  /\ getDaysAmountInAMonth 2023 1 = 28.
Proof.
  intros Hm n. subst n. cbn [getDaysAmountInAMonth specUtils].
  split; [| split; [| split; [| split; [| split]]]].
  - intros ->. unfold SpecUtils.getDaysAmountInAMonth.
    fold (isLeapYear year). rewrite !isGregorianLeapYear_spec.
    destruct (isLeapYear year); split; split; congruence.
  - cbn [In]. intros [<- | [<- | [<- | [<- | []]]]]; reflexivity.
  - cbn [In].
    intros [<- | [<- | [<- | [<- | [<- | [<- | [<- | []]]]]]]]; reflexivity.
  - rewrite MakeDay_next_month, getDaysAmountInAMonth_monthLength
      by assumption.
    reflexivity.
  - reflexivity.
  - reflexivity.
Qed.

Lemma getDaysAmountInAMonth_gregorian_witness :
  (getDaysAmountInAMonth 2000 1 = 29 <-> isGregorianLeapYear 2000)
  /\ MakeDay 1900 (1 + 1) 1 - MakeDay 1900 1 1 = 28.
Proof.
  split.
  - apply (getDaysAmountInAMonth_gregorian 2000 1); [lia | reflexivity].
  - apply (getDaysAmountInAMonth_gregorian 1900 1). lia.
Defined.

(** C3.  For a month in 0..11, the grid of the panel is
    [getPreviousMonthDays] followed by [getCurrentMonthDays] followed by
    [getNextMonthDays]; it has 42 cells; its tags are a run of
    [previous], then a run of [current] as long as the month has days,
    then a run of [next]. *)
Theorem dateCells_grid (year month : Z) :
  0 <= month <= 11 ->
  let prevMonthDays := getPreviousMonthDays year month in
  let currentMonthDays :=
    getCurrentMonthDays year month (getDaysAmountInAMonth year month) in
  let nextMonthDays := getNextMonthDays year month in
  let grid := DatePickerPoputContent.dateCells (mkPanel year month) in
  grid = prevMonthDays ++ currentMonthDays ++ nextMonthDays
  /\ length grid = 42%nat
  /\ length currentMonthDays = Z.to_nat (getDaysAmountInAMonth year month)
  /\ map type grid
     = repeat previous (length prevMonthDays)
       ++ repeat current (length currentMonthDays)
       ++ repeat next (length nextMonthDays).
Proof.
  intros Hm. cbv zeta.
  unfold DatePickerPoputContent.dateCells.
  cbn [panelYear panelMonth getPreviousMonthDays getCurrentMonthDays
       getNextMonthDays getDaysAmountInAMonth specUtils].
  split; [reflexivity |].
  pose proof (getDaysAmountInAMonth_range year month Hm) as Hd.
  pose proof (firstWeekDay_range year month) as Hw.
  split; [| split].
  - rewrite !length_app, length_getPreviousMonthDays,
      length_getCurrentMonthDays, length_getNextMonthDays.
    lia.
  - apply length_getCurrentMonthDays.
  - rewrite !map_app.
    unfold SpecUtils.getPreviousMonthDays, SpecUtils.getCurrentMonthDays,
      SpecUtils.getNextMonthDays.
    cbv zeta. rewrite !map_type_cells, !length_map. reflexivity.
Qed.

Lemma dateCells_grid_witness :
  length (DatePickerPoputContent.dateCells (mkPanel 2023 4)) = 42%nat.
Proof. apply (dateCells_grid 2023 4). lia. Defined.

End Grid.

(* ================================================================== *)
(** ** The canonical format and its parser *)

Module FormatFacts.
Import JSDateFacts GridFacts.

Lemma digitVal_digitChar (d : Z) :
  0 <= d <= 9 -> SpecUtils.digitVal (SpecUtils.digitChar d) = Some d.
Proof.
  intros H.
  assert (C : d = 0 \/ d = 1 \/ d = 2 \/ d = 3 \/ d = 4 \/ d = 5 \/ d = 6
              \/ d = 7 \/ d = 8 \/ d = 9) by lia.
  repeat (destruct C as [C | C]); subst d; reflexivity.
Qed.

Lemma digitVal_range (c : ascii) (v : Z) :
  SpecUtils.digitVal c = Some v -> 0 <= v <= 9.
Proof.
  unfold SpecUtils.digitVal. cbv zeta.
  destruct (Z.leb_spec 48 (Z.of_nat (nat_of_ascii c)));
    destruct (Z.leb_spec (Z.of_nat (nat_of_ascii c)) 57);
    cbn [andb]; intros [= <-]; lia.
Qed.

(** A number below [10 ^ w] has at most [w] digits, whatever the fuel. *)
Lemma countDigits_le (w : nat) :
  forall fuel n,
    (1 <= w)%nat -> 0 <= n < 10 ^ Z.of_nat w ->
    (SpecUtils.countDigits fuel n <= w)%nat.
Proof.
  induction w as [| w IH]; intros fuel n Hw Hn; [lia |].
  destruct fuel as [| fuel]; cbn [SpecUtils.countDigits]; [lia |].
  destruct (Z.ltb_spec n 10) as [L | G]; [lia |].
  destruct w as [| w'].
  - change (10 ^ Z.of_nat 1) with 10 in Hn. lia.
  - apply le_n_S, IH; [lia |].
    rewrite Nat2Z.inj_succ, Z.pow_succ_r in Hn by lia.
    split; [apply Z.div_pos; lia |].
    apply Z.div_lt_upper_bound; lia.
Qed.

(** Within its width, [zeroPad] writes exactly [w] digits. *)
Lemma zeroPad_fixedDigits (w : nat) (n : Z) :
  (1 <= w)%nat -> 0 <= n < 10 ^ Z.of_nat w ->
  SpecUtils.zeroPad w n = SpecUtils.fixedDigits w n.
Proof.
  intros Hw Hn. unfold SpecUtils.zeroPad.
  destruct (Z.ltb_spec n 0) as [L | G]; [lia |].
  rewrite Nat.max_l; [reflexivity |].
  apply countDigits_le; assumption.
Qed.

Lemma number_2digits (n : Z) :
  0 <= n <= 99 ->
  SpecUtils.number 0
    [SpecUtils.digitChar (n / 10 mod 10); SpecUtils.digitChar (n mod 10)]
  = Some n.
Proof.
  intros H. cbn [SpecUtils.number].
  rewrite !digitVal_digitChar by div_lia.
  f_equal. div_lia.
Qed.

Lemma number_4digits (n : Z) :
  0 <= n <= 9999 ->
  SpecUtils.number 0
    [SpecUtils.digitChar (n / 10 / 10 / 10 mod 10);
     SpecUtils.digitChar (n / 10 / 10 mod 10);
     SpecUtils.digitChar (n / 10 mod 10);
     SpecUtils.digitChar (n mod 10)]
  = Some n.
Proof.
  intros H. cbn [SpecUtils.number].
  rewrite !digitVal_digitChar by div_lia.
  f_equal. div_lia.
Qed.

(** The accessors read back what [ofCivil] was given. *)
Lemma ofCivil_fields (y m d : Z) :
  validCalendarDate y m d ->
  getFullYear (SpecUtils.ofCivil y m d) = y
  /\ getMonth (SpecUtils.ofCivil y m d) = m
  /\ getDate (SpecUtils.ofCivil y m d) = d.
Proof.
  intros [Hm Hd]. rewrite getDaysAmountInAMonth_monthLength in Hd by assumption.
  unfold getFullYear, getMonth, getDate, SpecUtils.ofCivil.
  rewrite Day_MakeDate.
  rewrite YearFromDay_MakeDay, MonthFromDay_MakeDay, DateFromDay_MakeDay
    by assumption.
  auto.
Qed.

(** Outside the two-digit years, [new Date(y, m, d)] is that calendar
    date. *)
Lemma newDate_fields (y m d : Z) :
  validCalendarDate y m d -> ~ 0 <= y <= 99 ->
  getFullYear (newDate y m d) = y
  /\ getMonth (newDate y m d) = m
  /\ getDate (newDate y m d) = d.
Proof.
  intros V Hy. unfold newDate. cbv zeta.
  destruct (Z.leb_spec 0 y); destruct (Z.leb_spec y 99); cbn [andb];
    try lia; apply (ofCivil_fields y m d V).
Qed.

Lemma list_ascii_of_string_app (a b : string) :
  list_ascii_of_string (a ++ b)
  = list_ascii_of_string a ++ list_ascii_of_string b.
Proof.
  induction a as [| c a IH]; cbn [String.append list_ascii_of_string app].
  - reflexivity.
  - rewrite IH. reflexivity.
Qed.

Lemma fixedDigits_succ (w : nat) (n : Z) :
  list_ascii_of_string (SpecUtils.fixedDigits (S w) n)
  = list_ascii_of_string (SpecUtils.fixedDigits w (n / 10))
    ++ [SpecUtils.digitChar (n mod 10)].
Proof.
  cbn [SpecUtils.fixedDigits]. rewrite list_ascii_of_string_app.
  reflexivity.
Qed.

Lemma length_fixedDigits (w : nat) :
  forall n,
    length (list_ascii_of_string (SpecUtils.fixedDigits w n)) = w.
Proof.
  induction w as [| w IH]; intros n; [reflexivity |].
  rewrite fixedDigits_succ, length_app, IH. cbn [length]. lia.
Qed.

Lemma number_app (l1 l2 : list ascii) :
  forall acc,
    SpecUtils.number acc (l1 ++ l2)
    = match SpecUtils.number acc l1 with
      | Some a => SpecUtils.number a l2
      | None => None
      end.
Proof.
  induction l1 as [| c l1 IH]; intros acc; cbn [app SpecUtils.number].
  - reflexivity.
  - destruct (SpecUtils.digitVal c); [apply IH | reflexivity].
Qed.

(** Reading the [w] digits of a number below [10 ^ w] gives the
    number. *)
Lemma number_fixedDigits (w : nat) :
  forall n acc,
    0 <= n < 10 ^ Z.of_nat w ->
    SpecUtils.number acc (list_ascii_of_string (SpecUtils.fixedDigits w n))
    = Some (acc * 10 ^ Z.of_nat w + n).
Proof.
  induction w as [| w IH]; intros n acc Hn.
  - cbn. change (10 ^ Z.of_nat 0) with 1 in Hn. f_equal. lia.
  - rewrite Nat2Z.inj_succ, Z.pow_succ_r in * by lia.
    rewrite fixedDigits_succ, number_app, IH by div_lia.
    cbn [SpecUtils.number]. rewrite digitVal_digitChar by div_lia.
    f_equal. div_lia.
Qed.

(** The text of a number starts with a digit. *)
Lemma fixedDigits_head (w : nat) :
  forall n,
    exists k ds,
      0 <= k <= 9
      /\ list_ascii_of_string (SpecUtils.fixedDigits (S w) n)
         = SpecUtils.digitChar k :: ds.
Proof.
  induction w as [| w IH]; intros n.
  - exists (n mod 10), []. split; [div_lia | reflexivity].
  - destruct (IH (n / 10)) as (k & ds & Hk & E).
    exists k, (ds ++ [SpecUtils.digitChar (n mod 10)]).
    split; [exact Hk |]. rewrite fixedDigits_succ, E. reflexivity.
Qed.

Lemma digitChar_not_minus (k : Z) :
  0 <= k <= 9 -> Ascii.eqb (SpecUtils.digitChar k) "-" = false.
Proof.
  intros H.
  assert (C : k = 0 \/ k = 1 \/ k = 2 \/ k = 3 \/ k = 4 \/ k = 5 \/ k = 6
              \/ k = 7 \/ k = 8 \/ k = 9) by lia.
  repeat (destruct C as [C | C]); subst k; reflexivity.
Qed.

(** The count of digits is enough to write the number. *)
Lemma countDigits_enough (fuel : nat) :
  forall n,
    0 <= n < 2 ^ (Z.of_nat fuel + 1) ->
    n < 10 ^ Z.of_nat (SpecUtils.countDigits fuel n).
Proof.
  induction fuel as [| fuel IH]; intros n Hn; cbn [SpecUtils.countDigits].
  - change (2 ^ (Z.of_nat 0 + 1)) with 2 in Hn.
    change (10 ^ Z.of_nat 1) with 10. lia.
  - destruct (Z.ltb_spec n 10) as [L | G].
    + change (10 ^ Z.of_nat 1) with 10. lia.
    + rewrite Nat2Z.inj_succ in Hn.
      replace (Z.succ (Z.of_nat fuel) + 1) with (Z.succ (Z.of_nat fuel + 1))
        in Hn by lia.
      rewrite Z.pow_succ_r in Hn by lia.
      assert (Hd : 0 <= n / 10 < 2 ^ (Z.of_nat fuel + 1)) by div_lia.
      specialize (IH _ Hd).
      rewrite Nat2Z.inj_succ, Z.pow_succ_r by lia. div_lia.
Qed.

Lemma numDigits_enough (n : Z) :
  0 <= n -> n < 10 ^ Z.of_nat (SpecUtils.numDigits n).
Proof.
  intros Hn. unfold SpecUtils.numDigits. apply countDigits_enough.
  rewrite Z2Nat.id by apply Z.log2_nonneg.
  destruct (Z.eq_dec n 0) as [-> | N]; [cbn; lia |].
  pose proof (Z.log2_spec n ltac:(lia)) as S.
  replace (Z.log2 n + 1) with (Z.succ (Z.log2 n)) by lia. lia.
Qed.

Lemma number_zeroPad_digits (w : nat) (n : Z) :
  0 <= n ->
  SpecUtils.number 0
    (list_ascii_of_string
       (SpecUtils.fixedDigits (Nat.max w (SpecUtils.numDigits n)) n))
  = Some n.
Proof.
  intros Hn. rewrite number_fixedDigits; [f_equal; lia |].
  split; [exact Hn |].
  pose proof (numDigits_enough n Hn) as B.
  eapply Z.lt_le_trans; [exact B |].
  apply Z.pow_le_mono_r; lia.
Qed.

(** The year reads back, whatever its sign and its number of digits. *)
Lemma yearNumber_zeroPad (y : Z) :
  SpecUtils.yearNumber (list_ascii_of_string (SpecUtils.zeroPad 4 y))
  = Some y.
Proof.
  unfold SpecUtils.zeroPad.
  destruct (Z.ltb_spec y 0) as [Neg | Pos].
  - cbn [list_ascii_of_string SpecUtils.yearNumber].
    change (Ascii.eqb "-" "-") with true. cbv iota.
    rewrite length_fixedDigits.
    destruct (Nat.leb_spec 4 (Nat.max 4 (SpecUtils.numDigits (- y))));
      [| lia].
    rewrite number_zeroPad_digits by lia. cbn [option_map].
    f_equal. lia.
  - set (w := Nat.max 4 (SpecUtils.numDigits y)).
    assert (Hw : exists w', w = S w') by (exists (Nat.pred w); subst w; lia).
    destruct Hw as (w' & Ew).
    destruct (fixedDigits_head w' y) as (k & ds & Hk & E).
    pose proof (length_fixedDigits w y) as L.
    pose proof (number_zeroPad_digits 4 y Pos) as N. fold w in N.
    rewrite Ew in *. rewrite E in *.
    cbn [SpecUtils.yearNumber]. rewrite digitChar_not_minus by assumption.
    rewrite L. destruct (Nat.leb_spec 4 (S w')); [exact N | lia].
Qed.

Lemma getInputValueFromDate_ofCivil (y m d : Z) :
  validCalendarDate y m d ->
  SpecUtils.getInputValueFromDate (SpecUtils.ofCivil y m d)
  = (SpecUtils.zeroPad 4 y ++ "-" ++ SpecUtils.fixedDigits 2 (m + 1)
       ++ "-" ++ SpecUtils.fixedDigits 2 d)%string.
Proof.
  intros V. pose proof V as [Hm Hd].
  pose proof (getDaysAmountInAMonth_range y m Hm) as R.
  destruct (ofCivil_fields y m d V) as (Ey & Em & Ed).
  unfold SpecUtils.getInputValueFromDate. rewrite Ey, Em, Ed.
  rewrite !(zeroPad_fixedDigits 2); try reflexivity; try lia;
    change (10 ^ Z.of_nat 2) with 100; lia.
Qed.

End FormatFacts.

Section Format.
Import JSDateFacts GridFacts FormatFacts.

#[local] Existing Instance specUtils.

(** C8.  For every valid CalendarDate, whatever its year, parsing its
    canonical rendering gives the date back. *)
Theorem getDateFromInputValue_getInputValueFromDate (y m d : Z) :
  validCalendarDate y m d ->
  getDateFromInputValue (getInputValueFromDate (SpecUtils.ofCivil y m d))
  = Some (SpecUtils.ofCivil y m d).
Proof.
  intros V. pose proof V as [Hm Hd].
  pose proof (getDaysAmountInAMonth_range y m Hm) as R.
  cbn [getDateFromInputValue getInputValueFromDate specUtils].
  rewrite getInputValueFromDate_ofCivil by assumption.
  unfold SpecUtils.getDateFromInputValue.
  rewrite list_ascii_of_string_app.
  cbn [SpecUtils.fixedDigits String.append list_ascii_of_string].
  rewrite rev_app_distr. cbn [rev app].
  change (Ascii.eqb "-" "-") with true. cbn [andb].
  rewrite rev_involutive, yearNumber_zeroPad, !number_2digits by lia.
  replace (m + 1 - 1) with m by lia.
  destruct (Z.leb_spec 1 (m + 1)); [| lia].
  destruct (Z.leb_spec (m + 1) 12); [| lia].
  destruct (Z.leb_spec 1 d); [| lia].
  destruct (Z.leb_spec d (SpecUtils.getDaysAmountInAMonth y m)); [| lia].
  reflexivity.
Qed.

Lemma getDateFromInputValue_getInputValueFromDate_witness :
  getDateFromInputValue (getInputValueFromDate (SpecUtils.ofCivil 2024 1 29))
  = Some (SpecUtils.ofCivil 2024 1 29)
  /\ getDateFromInputValue
       (getInputValueFromDate (SpecUtils.ofCivil 10000 0 1))
     = Some (SpecUtils.ofCivil 10000 0 1)
  /\ getDateFromInputValue
       (getInputValueFromDate (SpecUtils.ofCivil (-44) 2 15))
     = Some (SpecUtils.ofCivil (-44) 2 15).
Proof.
  split; [| split].
  - apply (getDateFromInputValue_getInputValueFromDate 2024 1 29).
    unfold validCalendarDate. cbn. lia.
  - apply (getDateFromInputValue_getInputValueFromDate 10000 0 1).
    unfold validCalendarDate. cbn. lia.
  - apply (getDateFromInputValue_getInputValueFromDate (-44) 2 15).
    unfold validCalendarDate. cbn. lia.
Defined.

End Format.

(* ================================================================== *)
(** ** The controller *)

Section Controller.
Import DatePicker DatePickerPoputContent.

Context {utils : Utils}.

Lemma run_updateValueOnPopupCloseAction (p : Props) (ui : UI) :
  run (updateValueOnPopupCloseAction p (state ui)) ui
  = match getDateFromInputValue (inputValue (state ui)) with
    | None =>
        mkUI (mkState false (getInputValueFromDate (value p)))
             (panel ui) (changes ui)
    | Some d =>
        if isInRange d (min p) (max p)
        then mkUI (mkState false (inputValue (state ui)))
                  (panel ui) (changes ui ++ [d])
        else mkUI (mkState false (inputValue (state ui)))
                  (panel ui) (changes ui)
    end.
Proof.
  unfold updateValueOnPopupCloseAction. cbv zeta.
  destruct (getDateFromInputValue (inputValue (state ui))) as [d |].
  - destruct (isInRange d (min p) (max p)); reflexivity.
  - reflexivity.
Qed.

Lemma fire_updateValueOnPopupCloseAction (tr : CloseTrigger) (p : Props)
  (s : State) :
  fire tr p s = updateValueOnPopupCloseAction p s.
Proof. destruct tr; reflexivity. Qed.

(** C1.  Whichever trigger fires the commit on popup close: if the
    input text does not parse, the popup closes, the input text becomes
    the canonical format of the selected date and [onChange] is not
    called; if it parses to a date out of range, the popup closes, the
    input text stays and [onChange] is not called; if it parses to a
    date in range, [onChange] is called with that date and the popup
    closes. *)
Theorem commit_on_popup_close (tr : CloseTrigger) (p : Props) (ui : UI) :
  let t := inputValue (state ui) in
  let ui' := run (fire tr p (state ui)) ui in
  (getDateFromInputValue t = None ->
   showPopup (state ui') = false
   /\ inputValue (state ui') = getInputValueFromDate (value p)
   /\ changes ui' = changes ui)
  /\ (forall d,
        getDateFromInputValue t = Some d ->
        isInRange d (min p) (max p) = false ->
        showPopup (state ui') = false
        /\ inputValue (state ui') = t
        /\ changes ui' = changes ui)
  /\ (forall d,
        getDateFromInputValue t = Some d ->
        isInRange d (min p) (max p) = true ->
        changes ui' = changes ui ++ [d]
        /\ showPopup (state ui') = false).
Proof.
  cbv zeta.
  rewrite fire_updateValueOnPopupCloseAction,
    run_updateValueOnPopupCloseAction.
  split; [| split].
  - intros ->. auto.
  - intros d -> ->. auto.
  - intros d -> ->. auto.
Qed.

(** The handler of a grid cell, by itself, calls [onChange] once, with
    the date built from the cell's year, month and day, and closes the
    popup; it neither reads nor changes the input text and does not
    consult the bounds, so a cell out of range, or a click while the
    input text does not parse, makes it commit all the same. *)
Theorem cell_click_commits (c : DateCellItem) (p : Props) (ui : UI) :
  let d := newDate (year c) (month c) (date c) in
  let ui' := run (onDateSelect handleChange c) ui in
  onDateSelect handleChange c = [OnChange d; SetShowPopup false]
  /\ changes ui' = changes ui ++ [d]
  /\ showPopup (state ui') = false
  /\ inputValue (state ui') = inputValue (state ui)
  /\ (isInRange d (min p) (max p) = false -> changes ui' = changes ui ++ [d])
  /\ (getDateFromInputValue (inputValue (state ui)) = None ->
      changes ui' = changes ui ++ [d]).
Proof. cbv zeta. repeat split. Qed.

(** C5.  With the panel month in 0..11: next-month takes (y, 11) to
    (y+1, 0) and any other (y, m) to (y, m+1); prev-month takes (y, 0)
    to (y-1, 11) and any other (y, m) to (y, m-1); none of the four
    navigation actions changes the input text, the popup flag or calls
    [onChange]; four next-month clicks from October of y end in February
    of y+1. *)
Theorem month_navigation (ui : UI) :
  0 <= panelMonth (panel ui) <= 11 ->
  let y := panelYear (panel ui) in
  let m := panelMonth (panel ui) in
  (m = 11 -> panel (click nextMonth ui) = mkPanel (y + 1) 0)
  /\ (m < 11 -> panel (click nextMonth ui) = mkPanel y (m + 1))
  /\ (m = 0 -> panel (click prevMonth ui) = mkPanel (y - 1) 11)
  /\ (m > 0 -> panel (click prevMonth ui) = mkPanel y (m - 1))
  /\ (forall h,
        In h [nextMonth; prevMonth; nextYear; prevYear] ->
        state (click h ui) = state ui /\ changes (click h ui) = changes ui)
  /\ (m = 9 ->
      panel (click nextMonth (click nextMonth
               (click nextMonth (click nextMonth ui))))
      = mkPanel (y + 1) 1).
Proof.
  intros Hm. cbv zeta. destruct ui as [s [y m] cs].
  cbn [panel panelYear panelMonth] in *.
  unfold click, nextMonth, prevMonth, nextYear, prevYear.
  cbn [panel panelYear panelMonth].
  split; [| split; [| split; [| split; [| split]]]].
  - intros ->. reflexivity.
  - intros L. destruct (Z.eqb_spec m 11); [lia | reflexivity].
  - intros ->. reflexivity.
  - intros G. destruct (Z.eqb_spec m 0); [lia | reflexivity].
  - cbn [In]. intros h [<- | [<- | [<- | [<- | []]]]];
      cbn [panel panelYear panelMonth];
      try destruct (Z.eqb_spec m 11); try destruct (Z.eqb_spec m 0);
      split; reflexivity.
  - intros ->. reflexivity.
Qed.

(** C6.  Whenever the input text parses, whether or not the date is in
    range, the layout effect sets the panel to the year and the month of
    the parsed date; whenever it does not parse, the panel is left as it
    is. *)
Theorem panel_auto_sync (p : Props) (ui : UI) :
  let t := inputValue (state ui) in
  let ui' :=
    run (inputValueDateLayoutEffect (inputValueDate p (state ui))) ui in
  (forall d,
     getDateFromInputValue t = Some d ->
     panelYear (panel ui') = getFullYear d
     /\ panelMonth (panel ui') = getMonth d)
  /\ (getDateFromInputValue t = None -> panel ui' = panel ui).
Proof.
  cbv zeta. unfold inputValueDate, inputValueMemo. cbv zeta.
  split.
  - intros d ->. split; reflexivity.
  - intros ->. reflexivity.
Qed.

(** C7.  The validity flag is true exactly when the input text parses;
    it is the same under any other props, bounds included; a parsed
    date out of range is still reported valid. *)
Theorem validity_ignores_range (p : Props) (s : State) :
  (isValidInputValue p s = true
   <-> exists d, getDateFromInputValue (inputValue s) = Some d)
  /\ (forall p', isValidInputValue p' s = isValidInputValue p s)
  /\ (forall d,
        getDateFromInputValue (inputValue s) = Some d ->
        isInRange d (min p) (max p) = false ->
        isValidInputValue p s = true).
Proof.
  unfold isValidInputValue, inputValueMemo. cbv zeta.
  split; [| split].
  - destruct (getDateFromInputValue (inputValue s)) as [d |]; cbn [snd].
    + split; [eauto | reflexivity].
    + split; [discriminate | intros [d E]; discriminate].
  - intros p'.
    destruct (getDateFromInputValue (inputValue s)); reflexivity.
  - intros d -> _. reflexivity.
Qed.

(** C10.  A document click on a node outside the root element runs the
    commit on popup close whatever the popup flag is: with the popup
    closed, text that parses to a date in range makes it call
    [onChange], and text that does not parse makes it reset the input
    text to the canonical format of the selected date. *)
Theorem outside_click_commits_when_closed (p : Props) (ui : UI) :
  let s := state ui in
  let ui' := run (onDocumentClick p s (NodeTarget false)) ui in
  onDocumentClick p s (NodeTarget false) = updateValueOnPopupCloseAction p s
  /\ (forall b,
        onDocumentClick p (mkState b (inputValue s)) (NodeTarget false)
        = onDocumentClick p s (NodeTarget false))
  /\ (showPopup s = false ->
      forall d,
        getDateFromInputValue (inputValue s) = Some d ->
        isInRange d (min p) (max p) = true ->
        changes ui' = changes ui ++ [d])
  /\ (showPopup s = false ->
      getDateFromInputValue (inputValue s) = None ->
      inputValue (state ui') = getInputValueFromDate (value p)
      /\ changes ui' = changes ui).
Proof.
  cbv zeta. cbn [onDocumentClick].
  rewrite run_updateValueOnPopupCloseAction.
  split; [reflexivity | split; [reflexivity | split]].
  - intros _ d -> ->. reflexivity.
  - intros _ ->. split; reflexivity.
Qed.

(** The range flag of a cell is computed on the date one month before
    the cell's. *)
Lemma isDateInRange_cellFlags (selectedValue todayDate : Date)
  (min max : option Date) (cell : DateCellItem) :
  isDateInRange (cellFlags selectedValue todayDate min max cell)
  = isInRange (newDate (year cell) (month cell - 1) (date cell)) min max.
Proof. reflexivity. Qed.

End Controller.

(* ================================================================== *)
(** ** The controller on the utilities of the specification *)

Section Scenarios.
Import DatePicker DatePickerPoputContent.

#[local] Existing Instance specUtils.

Lemma commit_on_popup_close_witness :
  inputValue (state (run (fire EnterKey bounded (state (typed true "abcd")))
                         (typed true "abcd")))
  = "2023-05-15"%string
  /\ (inputValue
        (state (run (fire EnterKey bounded (state (typed true "2023-06-01")))
                    (typed true "2023-06-01")))
      = "2023-06-01"%string
      /\ changes (run (fire EnterKey bounded (state (typed true "2023-06-01")))
                      (typed true "2023-06-01"))
         = [])
  /\ changes (run (fire OutsideClick unbounded
                        (state (typed true "2023-06-01")))
                  (typed true "2023-06-01"))
     = [newDate 2023 5 1].
Proof.
  split; [| split].
  - destruct (commit_on_popup_close EnterKey bounded (typed true "abcd"))
      as (H & _ & _).
    destruct (H eq_refl) as (_ & E & _). exact E.
  - destruct (commit_on_popup_close EnterKey bounded (typed true "2023-06-01"))
      as (_ & H & _).
    destruct (H (newDate 2023 5 1) eq_refl eq_refl) as (_ & E1 & E2).
    split; [exact E1 | exact E2].
  - destruct (commit_on_popup_close OutsideClick unbounded
                (typed true "2023-06-01")) as (_ & _ & H).
    destruct (H (newDate 2023 5 1) eq_refl eq_refl) as (E & _). exact E.
Defined.

Lemma cell_click_commits_witness :
  isInRange (newDate 2023 5 1) (min bounded) (max bounded) = false
  /\ changes (run (onDateSelect handleChange (mkDateCellItem 2023 5 1 next))
                  (typed true "abcd"))
     = [newDate 2023 5 1].
Proof.
  split; [reflexivity |].
  destruct (cell_click_commits (mkDateCellItem 2023 5 1 next) bounded
              (typed true "abcd")) as (_ & _ & _ & _ & H & _).
  exact (H eq_refl).
Defined.

Lemma month_navigation_witness :
  panel (click nextMonth (click nextMonth (click nextMonth (click nextMonth
           (mkUI (mkState true "2023-10-05") (mkPanel 2023 9) [])))))
  = mkPanel 2024 1.
Proof.
  destruct (month_navigation
              (mkUI (mkState true "2023-10-05") (mkPanel 2023 9) []))
    as (_ & _ & _ & _ & _ & H).
  - cbn. lia.
  - exact (H eq_refl).
Defined.

Lemma panel_auto_sync_witness :
  panel (run (inputValueDateLayoutEffect
                (inputValueDate bounded (state (typed true "2023-06-01"))))
             (typed true "2023-06-01"))
  = mkPanel 2023 5
  /\ panel (run (inputValueDateLayoutEffect
                   (inputValueDate bounded (state (typed true "abcd"))))
                (typed true "abcd"))
     = mkPanel 2023 4.
Proof.
  destruct (panel_auto_sync bounded (typed true "2023-06-01")) as (H & _).
  destruct (panel_auto_sync bounded (typed true "abcd")) as (_ & K).
  split; [| exact (K eq_refl)].
  destruct (H (newDate 2023 5 1) eq_refl) as (Ey & Em).
  destruct (panel _) as [y m]. cbn [panelYear panelMonth] in Ey, Em.
  rewrite Ey, Em. reflexivity.
Defined.

Lemma validity_ignores_range_witness :
  isInRange (newDate 2023 5 1) (min bounded) (max bounded) = false
  /\ isValidInputValue bounded (mkState true "2023-06-01") = true.
Proof.
  split; [reflexivity |].
  destruct (validity_ignores_range bounded (mkState true "2023-06-01"))
    as (_ & _ & H).
  exact (H (newDate 2023 5 1) eq_refl eq_refl).
Defined.

Lemma outside_click_commits_when_closed_witness :
  changes (run (onDocumentClick unbounded (state (typed false "2023-06-01"))
                  (NodeTarget false))
               (typed false "2023-06-01"))
  = [newDate 2023 5 1]
  /\ inputValue
       (state (run (onDocumentClick unbounded (state (typed false "abcd"))
                      (NodeTarget false))
                   (typed false "abcd")))
     = "2023-05-15"%string.
Proof.
  split.
  - destruct (outside_click_commits_when_closed unbounded
                (typed false "2023-06-01")) as (_ & _ & H & _).
    exact (H eq_refl (newDate 2023 5 1) eq_refl eq_refl).
  - destruct (outside_click_commits_when_closed unbounded
                (typed false "abcd")) as (_ & _ & _ & H).
    destruct (H eq_refl eq_refl) as (E & _). exact E.
Defined.

(** C2, on the code.  With the bounds set to May 2023, the cell of
    1 May 2023 is in the grid of May 2023 and its date is in range, yet
    the cell is given the not-in-range class: the flag is computed on
    1 April.  The cell of 1 June 2023 is in the same grid and out of
    range, yet is not given the class. *)
Theorem cell_range_flag_one_month_early :
  let may1 := mkDateCellItem 2023 4 1 current in
  let june1 := mkDateCellItem 2023 5 1 next in
  let flags := cellFlags selected selected (min bounded) (max bounded) in
  (In may1 (dateCells (mkPanel 2023 4))
   /\ isInRange (newDate 2023 4 1) (min bounded) (max bounded) = true
   /\ notInRangeClass (flags may1) = true)
  /\ (In june1 (dateCells (mkPanel 2023 4))
      /\ isInRange (newDate 2023 5 1) (min bounded) (max bounded) = false
      /\ notInRangeClass (flags june1) = false).
Proof.
  cbv zeta. repeat split; try reflexivity.
  - vm_compute. tauto.
  - vm_compute. tauto.
Qed.

(** The scenarios of the specification, run. *)

Example enter_commits_typed_date :
  run (onKeyDown unbounded (state (typed true "2023-06-01")) "Enter")
      (typed true "2023-06-01")
  = mkUI (mkState false "2023-06-01") (mkPanel 2023 4) [newDate 2023 5 1].
Proof. reflexivity. Qed.

Example enter_rejects_out_of_range :
  run (onKeyDown bounded (state (typed true "2023-06-01")) "Enter")
      (typed true "2023-06-01")
  = mkUI (mkState false "2023-06-01") (mkPanel 2023 4) [].
Proof. reflexivity. Qed.

Example enter_reverts_garbage :
  run (onKeyDown unbounded (state (typed true "abcd")) "Enter")
      (typed true "abcd")
  = mkUI (mkState false "2023-05-15") (mkPanel 2023 4) [].
Proof. reflexivity. Qed.

Example other_keys_do_nothing :
  onKeyDown unbounded (state (typed true "abcd")) "Escape" = [].
Proof. reflexivity. Qed.

Example click_inside_does_nothing :
  onDocumentClick unbounded (state (typed true "abcd")) (NodeTarget true)
  = [].
Proof. reflexivity. Qed.

Example march_2023_leading_cells :
  firstn 4 (dateCells (mkPanel 2023 2))
  = [mkDateCellItem 2023 1 26 previous; mkDateCellItem 2023 1 27 previous;
     mkDateCellItem 2023 1 28 previous; mkDateCellItem 2023 2 1 current].
Proof. reflexivity. Qed.

Example previous_cell_click_commits_february :
  let ui := run (onDateSelect handleChange (mkDateCellItem 2023 1 26 previous))
                (typed true "2023-03-10") in
  map getMonth (changes ui) = [1] /\ showPopup (state ui) = false.
Proof. split; reflexivity. Qed.

Example january_rolls_back_to_december :
  hd_error (dateCells (mkPanel 2024 0))
  = Some (mkDateCellItem 2023 11 31 previous).
Proof. reflexivity. Qed.

Example december_rolls_forward_to_january :
  hd_error (getNextMonthDays 2023 11) = Some (mkDateCellItem 2024 0 1 next).
Proof. reflexivity. Qed.

End Scenarios.

(* ================================================================== *)
(** ** The host calendar: from a time value to its fields and back *)

Module JSDateFields.
Import JSDateFacts.

Lemma monthStart_12 (y : Z) : monthStart (InLeapYear y) 12 = DaysInYear y.
Proof.
  unfold monthStart, InLeapYear, DaysInYear. destruct (isLeapYear y); lia.
Qed.

Lemma DayWithinYear_range (n : Z) :
  0 <= DayWithinYear n < DaysInYear (YearFromDay n).
Proof.
  unfold DayWithinYear. pose proof (YearFromDay_bounds n) as B.
  rewrite DayFromYear_succ in B. lia.
Qed.

(** Within the year, the scan ends on a month whose span holds the
    day. *)
Lemma monthScan_bounds (fuel : nat) :
  forall leap x m0,
    0 <= m0 -> m0 + Z.of_nat fuel = 11 ->
    monthStart leap m0 <= x < monthStart leap 12 ->
    m0 <= monthScan leap x m0 fuel <= 11
    /\ monthStart leap (monthScan leap x m0 fuel) <= x
       < monthStart leap (monthScan leap x m0 fuel + 1).
Proof.
  induction fuel as [| fuel IH]; intros leap x m0 H0 Hf Hx;
    cbn [monthScan].
  - assert (m0 = 11) by lia. subst m0. change (11 + 1) with 12. lia.
  - destruct (Z.ltb_spec x (monthStart leap (m0 + 1))) as [L | G].
    + lia.
    + destruct (IH leap x (m0 + 1)) as (A & B); lia.
Qed.

Lemma MonthFromDay_spec (n : Z) :
  0 <= MonthFromDay n <= 11
  /\ monthStart (InLeapYear (YearFromDay n)) (MonthFromDay n)
     <= DayWithinYear n
     < monthStart (InLeapYear (YearFromDay n)) (MonthFromDay n + 1).
Proof.
  unfold MonthFromDay. apply monthScan_bounds; try lia.
  rewrite monthStart_12. change (monthStart _ 0) with 0.
  apply DayWithinYear_range.
Qed.

Lemma DateFromDay_range (n : Z) :
  1 <= DateFromDay n <= monthLength (YearFromDay n) (MonthFromDay n).
Proof.
  pose proof (MonthFromDay_spec n) as (_ & S).
  unfold DateFromDay, monthLength. lia.
Qed.

(** The fields of a day number make the day number. *)
Lemma MakeDay_fields (n : Z) :
  MakeDay (YearFromDay n) (MonthFromDay n) (DateFromDay n) = n.
Proof.
  pose proof (MonthFromDay_spec n) as (R & _).
  rewrite MakeDay_month_in_range by assumption.
  unfold DateFromDay, DayWithinYear. lia.
Qed.







End JSDateFields.

(* ================================================================== *)
(** ** Navigation in the popup *)

Section Navigation.
Import JSDateFacts JSDateFields DatePickerPoputContent.

Lemma UI_eta (ui : UI) : ui = mkUI (state ui) (panel ui) (changes ui).
Proof. destruct ui; reflexivity. Qed.

Lemma click_nextMonth (ui : UI) :
  click nextMonth ui
  = mkUI (state ui)
         (if panelMonth (panel ui) =? 11
          then mkPanel (panelYear (panel ui) + 1) 0
          else mkPanel (panelYear (panel ui)) (panelMonth (panel ui) + 1))
         (changes ui).
Proof.
  unfold click, nextMonth.
  destruct (panelMonth (panel ui) =? 11); reflexivity.
Qed.

Lemma click_prevMonth (ui : UI) :
  click prevMonth ui
  = mkUI (state ui)
         (if panelMonth (panel ui) =? 0
          then mkPanel (panelYear (panel ui) - 1) 11
          else mkPanel (panelYear (panel ui)) (panelMonth (panel ui) - 1))
         (changes ui).
Proof.
  unfold click, prevMonth.
  destruct (panelMonth (panel ui) =? 0); reflexivity.
Qed.

Lemma panel_of_index (pn : Panel) :
  0 <= panelMonth pn <= 11 ->
  pn = mkPanel (panelIndex pn / 12) (panelIndex pn mod 12).
Proof.
  destruct pn as [y m]. unfold panelIndex. cbn [panelYear panelMonth].
  intros H. f_equal; div_lia.
Qed.

(** X1.  With the panel month in 0..11, a prev-month click undoes a
    next-month click and a next-month click undoes a prev-month click:
    the whole state of the control is what it was.  The two year buttons
    undo each other whatever the panel holds. *)
Theorem month_clicks_undo (ui : UI) :
  (0 <= panelMonth (panel ui) <= 11 ->
   click prevMonth (click nextMonth ui) = ui
   /\ click nextMonth (click prevMonth ui) = ui)
  /\ click prevYear (click nextYear ui) = ui
  /\ click nextYear (click prevYear ui) = ui.
Proof.
  destruct ui as [s [y m] cs]. cbn [panel panelMonth].
  split; [| split].
  - intros H. rewrite click_prevMonth, click_nextMonth, click_nextMonth,
      click_prevMonth.
    cbn [panel panelYear panelMonth state changes].
    destruct (Z.eqb_spec m 11) as [E11 | N11];
      destruct (Z.eqb_spec m 0) as [E0 | N0]; try lia;
      cbn [panel panelYear panelMonth state changes];
      repeat match goal with
             | |- context [?a =? ?b] => destruct (Z.eqb_spec a b); try lia
             end;
      cbn [panelYear panelMonth];
      split; repeat f_equal; lia.
  - unfold click, nextYear, prevYear.
    cbn [panel panelYear panelMonth state changes run fold_left perform].
    repeat f_equal. lia.
  - unfold click, nextYear, prevYear.
    cbn [panel panelYear panelMonth state changes run fold_left perform].
    repeat f_equal. lia.
Qed.

Lemma month_clicks_undo_witness :
  click prevMonth (click nextMonth (typed true "abcd")) = typed true "abcd"
  /\ click nextMonth
       (click prevMonth (mkUI (mkState true "") (mkPanel 2024 0) []))
     = mkUI (mkState true "") (mkPanel 2024 0) [].
Proof.
  split.
  - destruct (month_clicks_undo (typed true "abcd")) as (H & _).
    apply H. cbn. lia.
  - destruct (month_clicks_undo
                (mkUI (mkState true "") (mkPanel 2024 0) [])) as (H & _).
    apply H. cbn. lia.
Defined.

(** [n] clicks on next-month, counted in months. *)
Lemma iter_click_nextMonth (n : nat) (ui : UI) :
  0 <= panelMonth (panel ui) <= 11 ->
  let ui' := Nat.iter n (click nextMonth) ui in
  panelIndex (panel ui') = panelIndex (panel ui) + Z.of_nat n
  /\ 0 <= panelMonth (panel ui') <= 11
  /\ state ui' = state ui
  /\ changes ui' = changes ui.
Proof.
  intros H. cbv zeta. induction n as [| n (IHi & IHm & IHs & IHc)].
  - cbn [Nat.iter nat_rect]. rewrite Z.add_0_r. auto.
  - rewrite Nat.iter_succ, click_nextMonth, IHs, IHc, Nat2Z.inj_succ.
    cbn [panel state changes]. unfold panelIndex in *.
    destruct (Z.eqb_spec (panelMonth (panel (Nat.iter n (click nextMonth) ui)))
                11);
      cbn [panelYear panelMonth]; repeat split; lia.
Qed.

(** [n] clicks on prev-month, counted in months. *)
Lemma iter_click_prevMonth (n : nat) (ui : UI) :
  0 <= panelMonth (panel ui) <= 11 ->
  let ui' := Nat.iter n (click prevMonth) ui in
  panelIndex (panel ui') = panelIndex (panel ui) - Z.of_nat n
  /\ 0 <= panelMonth (panel ui') <= 11
  /\ state ui' = state ui
  /\ changes ui' = changes ui.
Proof.
  intros H. cbv zeta. induction n as [| n (IHi & IHm & IHs & IHc)].
  - cbn [Nat.iter nat_rect]. rewrite Z.sub_0_r. auto.
  - rewrite Nat.iter_succ, click_prevMonth, IHs, IHc, Nat2Z.inj_succ.
    cbn [panel state changes]. unfold panelIndex in *.
    destruct (Z.eqb_spec (panelMonth (panel (Nat.iter n (click prevMonth) ui)))
                0);
      cbn [panelYear panelMonth]; repeat split; lia.
Qed.

(** X2.  With the panel month in 0..11, [n] next-month clicks move the
    panel [n] months forward: the count of months [12 * year + month]
    grows by [n] and the month stays in 0..11, so the panel is the
    quotient and the remainder of the new count by 12.  Nothing else of
    the control changes. *)
Theorem next_month_clicks (n : nat) (ui : UI) :
  0 <= panelMonth (panel ui) <= 11 ->
  let ui' := Nat.iter n (click nextMonth) ui in
  let i := panelIndex (panel ui) + Z.of_nat n in
  panel ui' = mkPanel (i / 12) (i mod 12)
  /\ state ui' = state ui
  /\ changes ui' = changes ui.
Proof.
  intros H. cbv zeta.
  destruct (iter_click_nextMonth n ui H) as (Ei & Em & Es & Ec).
  split; [| split; assumption].
  rewrite (panel_of_index _ Em), Ei. reflexivity.
Qed.

Lemma next_month_clicks_witness :
  panel (Nat.iter 27 (click nextMonth) (typed true "abcd"))
  = mkPanel 2025 7.
Proof.
  destruct (next_month_clicks 27 (typed true "abcd")) as (H & _).
  - cbn. lia.
  - exact H.
Defined.

(** X3.  With the panel month in 0..11, [n] prev-month clicks move the
    panel [n] months back, in the same sense, past any number of
    Januaries and into negative years. *)
Theorem prev_month_clicks (n : nat) (ui : UI) :
  0 <= panelMonth (panel ui) <= 11 ->
  let ui' := Nat.iter n (click prevMonth) ui in
  let i := panelIndex (panel ui) - Z.of_nat n in
  panel ui' = mkPanel (i / 12) (i mod 12)
  /\ state ui' = state ui
  /\ changes ui' = changes ui.
Proof.
  intros H. cbv zeta.
  destruct (iter_click_prevMonth n ui H) as (Ei & Em & Es & Ec).
  split; [| split; assumption].
  rewrite (panel_of_index _ Em), Ei. reflexivity.
Qed.

Lemma prev_month_clicks_witness :
  panel (Nat.iter 5 (click prevMonth) (typed true "abcd"))
  = mkPanel 2022 11.
Proof.
  destruct (prev_month_clicks 5 (typed true "abcd")) as (H & _).
  - cbn. lia.
  - exact H.
Defined.

Lemma panel_by_index (pn pn' : Panel) :
  0 <= panelMonth pn <= 11 -> 0 <= panelMonth pn' <= 11 ->
  panelIndex pn = panelIndex pn' -> pn = pn'.
Proof.
  destruct pn as [y m], pn' as [y' m']. unfold panelIndex.
  cbn [panelYear panelMonth]. intros H H' E. f_equal; lia.
Qed.

(** X4.  With the panel month in 0..11, twelve next-month clicks leave
    the control where one next-year click does, and twelve prev-month
    clicks where one prev-year click does. *)
Theorem twelve_month_clicks (ui : UI) :
  0 <= panelMonth (panel ui) <= 11 ->
  Nat.iter 12 (click nextMonth) ui = click nextYear ui
  /\ Nat.iter 12 (click prevMonth) ui = click prevYear ui.
Proof.
  intros H.
  destruct (iter_click_nextMonth 12 ui H) as (Ni & Nm & Ns & Nc).
  destruct (iter_click_prevMonth 12 ui H) as (Pi & Pm & Ps & Pc).
  split.
  - rewrite (UI_eta (Nat.iter 12 (click nextMonth) ui)), Ns, Nc.
    unfold click at 2. unfold nextYear. cbn [run fold_left perform].
    f_equal. apply panel_by_index; [exact Nm | exact H |].
    rewrite Ni. unfold panelIndex. cbn [panelYear panelMonth]. lia.
  - rewrite (UI_eta (Nat.iter 12 (click prevMonth) ui)), Ps, Pc.
    unfold click at 2. unfold prevYear. cbn [run fold_left perform].
    f_equal. apply panel_by_index; [exact Pm | exact H |].
    rewrite Pi. unfold panelIndex. cbn [panelYear panelMonth]. lia.
Qed.

Lemma twelve_month_clicks_witness :
  Nat.iter 12 (click nextMonth) (typed true "abcd")
  = click nextYear (typed true "abcd").
Proof. apply (twelve_month_clicks (typed true "abcd")). cbn. lia. Defined.

Lemma click_keeps_month (h : Panel -> list Effect) (ui : UI) :
  In h [nextYear; prevYear; nextMonth; prevMonth] ->
  0 <= panelMonth (panel ui) <= 11 ->
  0 <= panelMonth (panel (click h ui)) <= 11
  /\ state (click h ui) = state ui
  /\ changes (click h ui) = changes ui.
Proof.
  intros Hh H. destruct ui as [s [y m] cs]. cbn [panel panelMonth] in H.
  cbn [In] in Hh. destruct Hh as [<- | [<- | [<- | [<- | []]]]].
  - cbn. auto.
  - cbn. auto.
  - rewrite click_nextMonth. cbn [panel panelMonth panelYear state changes].
    destruct (Z.eqb_spec m 11); cbn [panelMonth]; repeat split; lia.
  - rewrite click_prevMonth. cbn [panel panelMonth panelYear state changes].
    destruct (Z.eqb_spec m 0); cbn [panelMonth]; repeat split; lia.
Qed.

(** X5.  From a panel month in 0..11, any sequence of clicks on the
    four navigation buttons, in any order, leaves the panel month in
    0..11; the input text, the popup flag and the calls of [onChange]
    are not touched. *)
Theorem navigation_keeps_month_in_range
  (handlers : list (Panel -> list Effect)) (ui : UI) :
  0 <= panelMonth (panel ui) <= 11 ->
  Forall (fun h => In h [nextYear; prevYear; nextMonth; prevMonth]) handlers ->
  0 <= panelMonth (panel (clicks handlers ui)) <= 11
  /\ state (clicks handlers ui) = state ui
  /\ changes (clicks handlers ui) = changes ui.
Proof.
  intros H F. revert ui H. unfold clicks.
  induction F as [| h handlers Hh F IH]; intros ui H; cbn [fold_left].
  - auto.
  - destruct (click_keeps_month h ui Hh H) as (Cm & Cs & Cc).
    destruct (IH (click h ui) Cm) as (Im & Is & Ic).
    split; [exact Im | split; congruence].
Qed.

Lemma navigation_keeps_month_in_range_witness :
  0 <= panelMonth
         (panel (clicks [prevMonth; prevYear; nextMonth; nextMonth; nextYear]
                   (mkUI (mkState true "") (mkPanel 2024 0) [])))
  <= 11.
Proof.
  apply (navigation_keeps_month_in_range
           [prevMonth; prevYear; nextMonth; nextMonth; nextYear]
           (mkUI (mkState true "") (mkPanel 2024 0) [])).
  - cbn. lia.
  - repeat constructor; cbn; tauto.
Defined.

End Navigation.

(* ================================================================== *)
(** ** Events on the page of [App] *)

Section AppFacts.
Import DatePicker DatePickerPoputContent.

Context {utils : Utils}.

Lemma dispatch_onDateSelect (c : DateCellItem) (pg : App.Page) :
  App.dispatch (onDateSelect handleChange c) pg
  = App.mkPage (newDate (year c) (month c) (date c))
      (mkState false
         (getInputValueFromDate (newDate (year c) (month c) (date c))))
      (App.calls pg ++ [newDate (year c) (month c) (date c)]).
Proof.
  unfold App.dispatch, onDateSelect, handleChange.
  cbn [fold_left App.perform App.calls App.date App.picker].
  rewrite length_app. cbn [length].
  destruct (Nat.ltb_spec (length (App.calls pg))
              (length (App.calls pg) + 1)); [reflexivity | lia].
Qed.

Lemma dispatch_updateValueOnPopupCloseAction (pg : App.Page) :
  App.dispatch
    (updateValueOnPopupCloseAction (App.props pg) (App.picker pg)) pg
  = match getDateFromInputValue (inputValue (App.picker pg)) with
    | None =>
        App.mkPage (App.date pg)
          (mkState false (getInputValueFromDate (App.date pg)))
          (App.calls pg)
    | Some d =>
        if isInRange d None None
        then App.mkPage d (mkState false (getInputValueFromDate d))
               (App.calls pg ++ [d])
        else App.mkPage (App.date pg)
               (mkState false (inputValue (App.picker pg))) (App.calls pg)
    end.
Proof.
  unfold App.dispatch, updateValueOnPopupCloseAction. cbv zeta.
  destruct (getDateFromInputValue (inputValue (App.picker pg))) as [d |].
  - cbn [App.props min max].
    destruct (isInRange d None None);
      cbn [negb fold_left App.perform App.calls App.date App.picker
           inputValue showPopup].
    + rewrite length_app. cbn [length].
      destruct (Nat.ltb_spec (length (App.calls pg))
                  (length (App.calls pg) + 1)); [reflexivity | lia].
    + rewrite Nat.ltb_irrefl. reflexivity.
  - cbn [fold_left App.perform App.calls App.date App.picker value
         App.props inputValue showPopup].
    rewrite Nat.ltb_irrefl. reflexivity.
Qed.

(** A click on a cell is the handler of the cell, and then the commit
    on popup close, run on what the handler left. *)
Lemma clickCell_unfold (c : DateCellItem) (pg : App.Page) :
  App.clickCell c pg
  = App.dispatch
      (updateValueOnPopupCloseAction
         (App.props (App.dispatch (onDateSelect handleChange c) pg))
         (App.picker (App.dispatch (onDateSelect handleChange c) pg)))
      (App.dispatch (onDateSelect handleChange c) pg).
Proof.
  unfold App.clickCell, App.clickDocument. cbv zeta.
  rewrite dispatch_onDateSelect. reflexivity.
Qed.


End AppFacts.

Section CellClick.
Import DatePicker DatePickerPoputContent.

#[local] Existing Instance specUtils.

(** C4, on the code.  A click on a cell does not end with the handler
    of the cell.  For any utilities, [handleChange] calls [onChange]
    with the cell's date and closes the popup; the popup is then gone,
    the document listener of the same click finds its target outside
    the root element and runs the commit on popup close, which parses
    the input text and asks [isInRange].  In [App], on 15 May 2023 with
    the popup open, a click on the cell of 1 June 2023 calls [onChange]
    twice. *)
Theorem cell_click_runs_close_action :
  (forall (utils : Utils) (c : DateCellItem) (pg : App.Page),
     let d := newDate (year c) (month c) (date c) in
     let pg' :=
       App.mkPage d (mkState false (getInputValueFromDate d))
         (App.calls pg ++ [d]) in
     App.clickCell c pg
     = App.dispatch
         (updateValueOnPopupCloseAction (App.props pg') (App.picker pg'))
         pg')
  /\ App.calls
       (App.clickCell (mkDateCellItem 2023 5 1 next)
          (App.mkPage selected (mkState true "abcd") []))
     = [newDate 2023 5 1; newDate 2023 5 1].
Proof.
  split.
  - intros utils c pg. cbv zeta.
    rewrite clickCell_unfold, dispatch_onDateSelect. reflexivity.
  - rewrite clickCell_unfold, dispatch_updateValueOnPopupCloseAction,
      dispatch_onDateSelect.
    vm_compute. reflexivity.
Qed.

End CellClick.

(* ================================================================== *)
(** ** The dates of cells *)

Section Cells.
Import JSDateFacts JSDateFields DatePicker DatePickerPoputContent.

Context {utils : Utils}.










End Cells.

Section CellScenarios.
Import DatePicker DatePickerPoputContent.

#[local] Existing Instance specUtils.



End CellScenarios.

(* ================================================================== *)
(** ** The latest closure *)

Section LatestRef.
Import UseLatest.

Variable A : Type.
Variable same : A -> A -> bool.

(** What is the same to [Object.is] is equal. *)
Hypothesis same_eq : forall a b, same a b = true -> a = b.

Lemma rerender_current (h : Latest A) (value : A) :
  current A h = deps A h ->
  current A (rerender A same h value) = value
  /\ deps A (rerender A same h value) = value.
Proof.
  intros E. unfold rerender.
  destruct (same (deps A h) value) eqn:S; cbn [current deps].
  - apply same_eq in S. split; congruence.
  - split; reflexivity.
Qed.

Lemma last_cons (l : list A) :
  forall v d, last (v :: l) d = last l v.
Proof.
  induction l as [| w l IH]; intros v d; [reflexivity |].
  change (last (v :: w :: l) d) with (last (w :: l) d).
  rewrite !IH. reflexivity.
Qed.

Lemma useLatest_invariant (later : list A) :
  forall h,
    current A h = deps A h ->
    current A (fold_left (rerender A same) later h)
    = last later (current A h).
Proof.
  induction later as [| v later IH]; intros h E; cbn [fold_left].
  - reflexivity.
  - destruct (rerender_current h v E) as (Ec & Ed).
    rewrite IH by congruence. rewrite Ec, last_cons. reflexivity.
Qed.

(** X11.  After any number of renders the ref of [useLatest] holds the
    value of the last render, although the layout effect is skipped on
    the renders whose value is the same as the one before. *)
Theorem useLatest_current (first : A) (later : list A) :
  current A (useLatest A same first later) = last later first.
Proof.
  unfold useLatest. rewrite useLatest_invariant; reflexivity.
Qed.

End LatestRef.

Lemma useLatest_current_witness :
  UseLatest.current Z (UseLatest.useLatest Z Z.eqb 1 [2; 2; 3; 3]) = 3.
Proof.
  apply (useLatest_current Z Z.eqb).
  intros a b. apply Z.eqb_eq.
Defined.

(* ================================================================== *)
(** ** Events of the input and of the document *)

Section Events.
Import DatePicker DatePickerPoputContent.

Context {utils : Utils}.

(** X12.  A click that reaches the document listener runs the commit on
    the props and the state of the latest render, not of the render at
    which the listener was registered. *)
Theorem documentListener_runs_latest (first : Props * State)
  (later : list (Props * State)) (target : EventTarget) :
  documentListener (latestUpdateValueFromInput first later) target
  = onDocumentClick (fst (last later first)) (snd (last later first)) target.
Proof.
  unfold documentListener, latestUpdateValueFromInput, UseLatest.useLatest.
  rewrite useLatest_invariant; [reflexivity | discriminate | reflexivity].
Qed.

(** X13.  The key handler does not look at the popup flag: with the
    popup closed, Enter on text that parses to a date in range calls
    [onChange] with that date once, and on text that does not parse
    resets the text to the canonical format of the selected date; the
    popup stays closed and the panel is not touched. *)
Theorem enter_commits_when_closed (p : Props) (ui : UI) :
  showPopup (state ui) = false ->
  let t := inputValue (state ui) in
  let ui' := run (onKeyDown p (state ui) "Enter") ui in
  showPopup (state ui') = false
  /\ panel ui' = panel ui
  /\ (forall d,
        getDateFromInputValue t = Some d ->
        isInRange d (min p) (max p) = true ->
        changes ui' = changes ui ++ [d] /\ inputValue (state ui') = t)
  /\ (getDateFromInputValue t = None ->
      changes ui' = changes ui
      /\ inputValue (state ui') = getInputValueFromDate (value p)).
Proof.
  intros _. cbv zeta.
  change (onKeyDown p (state ui) "Enter")
    with (updateValueOnPopupCloseAction p (state ui)).
  rewrite run_updateValueOnPopupCloseAction.
  split; [| split; [| split]].
  - destruct (getDateFromInputValue (inputValue (state ui))) as [d |];
      [destruct (isInRange d (min p) (max p)) |]; reflexivity.
  - destruct (getDateFromInputValue (inputValue (state ui))) as [d |];
      [destruct (isInRange d (min p) (max p)) |]; reflexivity.
  - intros d -> ->. split; reflexivity.
  - intros ->. split; reflexivity.
Qed.


(** X16.  In [App], after Enter or a click outside: text that does not
    parse leaves [date] as it is and the input shows the canonical
    format of [date]; text that parses to a date [isInRange] accepts
    without bounds makes that date the [date], and the input shows its
    canonical format; text that parses to a date [isInRange] rejects
    leaves [date] and the text as they are.  The popup is closed in
    every case. *)
Theorem App_commit_on_popup_close (tr : CloseTrigger) (pg : App.Page) :
  let t := inputValue (App.picker pg) in
  let pg' := App.dispatch (fire tr (App.props pg) (App.picker pg)) pg in
  showPopup (App.picker pg') = false
  /\ (getDateFromInputValue t = None ->
      App.date pg' = App.date pg
      /\ inputValue (App.picker pg') = getInputValueFromDate (App.date pg))
  /\ (forall d,
        getDateFromInputValue t = Some d -> isInRange d None None = true ->
        App.date pg' = d
        /\ inputValue (App.picker pg') = getInputValueFromDate d)
  /\ (forall d,
        getDateFromInputValue t = Some d -> isInRange d None None = false ->
        App.date pg' = App.date pg /\ inputValue (App.picker pg') = t).
Proof.
  cbv zeta.
  rewrite fire_updateValueOnPopupCloseAction,
    dispatch_updateValueOnPopupCloseAction.
  split; [| split; [| split]].
  - destruct (getDateFromInputValue (inputValue (App.picker pg))) as [d |];
      [destruct (isInRange d None None) |]; reflexivity.
  - intros ->. split; reflexivity.
  - intros d -> ->. split; reflexivity.
  - intros d -> ->. split; reflexivity.
Qed.

End Events.

Section EventScenarios.
Import DatePicker DatePickerPoputContent.

#[local] Existing Instance specUtils.

Lemma enter_commits_when_closed_witness :
  changes (run (onKeyDown unbounded (state (typed false "2023-06-01")) "Enter")
               (typed false "2023-06-01"))
  = [newDate 2023 5 1]
  /\ inputValue
       (state (run (onKeyDown unbounded (state (typed false "abcd")) "Enter")
                   (typed false "abcd")))
     = "2023-05-15"%string.
Proof.
  split.
  - destruct (enter_commits_when_closed unbounded (typed false "2023-06-01")
                eq_refl) as (_ & _ & H & _).
    destruct (H (newDate 2023 5 1) eq_refl eq_refl) as (E & _). exact E.
  - destruct (enter_commits_when_closed unbounded (typed false "abcd")
                eq_refl) as (_ & _ & _ & H).
    destruct (H eq_refl) as (_ & E). exact E.
Defined.


Lemma App_commit_on_popup_close_witness :
  App.date
    (App.dispatch
       (fire EnterKey
          (App.props (App.mkPage selected (mkState true "2023-06-01") []))
          (mkState true "2023-06-01"))
       (App.mkPage selected (mkState true "2023-06-01") []))
  = newDate 2023 5 1
  /\ inputValue
       (App.picker
          (App.dispatch
             (fire OutsideClick
                (App.props
                   (App.mkPage (selected + 1) (mkState false "abcd") []))
                (mkState false "abcd"))
             (App.mkPage (selected + 1) (mkState false "abcd") [])))
     = "2023-05-15"%string.
Proof.
  split.
  - destruct (App_commit_on_popup_close EnterKey
                (App.mkPage selected (mkState true "2023-06-01") []))
      as (_ & _ & H & _).
    destruct (H (newDate 2023 5 1) eq_refl eq_refl) as (E & _). exact E.
  - destruct (App_commit_on_popup_close OutsideClick
                (App.mkPage (selected + 1) (mkState false "abcd") []))
      as (_ & H & _ & _).
    destruct (H eq_refl) as (_ & E). exact E.
Defined.

End EventScenarios.
